(** * BLE-MIDI bridge firmware (examples/ble_xg27_midi/ble_xg27_midi.ino)

    A shallow embedding of the sketch: its global variables, the two MIDI
    callbacks, the main [loop], the packet assembly in [midi_note_on] /
    [midi_note_off], the Bluetooth event handler [sl_bt_on_event] and the
    two set-up routines it calls.  The Bluetooth stack, the sleeptimer and
    the [app_assert_status] macro live in the vendor SDK; they appear here
    as a [Platform] the sketch runs against. *)

From Stdlib Require Import ZArith List Bool String Lia.
Import ListNotations.
Open Scope Z_scope.

(** ** Fixed-width integers *)

(** Storing into a [uint8_t] / [uint16_t] / [uint32_t] lvalue keeps the low
    bits. *)
Definition to_u8 (x : Z) : Z := Z.land x 0xFF.
Definition to_u16 (x : Z) : Z := Z.land x 0xFFFF.
Definition to_u32 (x : Z) : Z := Z.land x 0xFFFFFFFF.

Definition is_byte (x : Z) : Prop := 0 <= x < 256.

(** ** The notification payload *)

(** [midi_event_packet_t]: five [uint8_t] fields, packed. *)
Record midi_event_packet_t : Type := {
  header : Z;
  timestamp : Z;
  status : Z;
  note : Z;
  velocity : Z
}.

(** [midi_data_t] overlays the packed struct with [uint8_t payload[5]]: the
    bytes seen through the union, in declaration order. *)
Definition payload (p : midi_event_packet_t) : list Z :=
  [header p; timestamp p; status p; note p; velocity p].

(** The assignments of [midi_note_on] to its [static midi_data_t note_on],
    given the millisecond count [ms] read from the sleeptimer. *)
Definition note_on_packet (ms note velocity : Z) : midi_event_packet_t :=
  let temp := Z.land ms 0x00001fff in
  {| header := to_u8 (Z.lor 0x80 (Z.shiftr temp 7));
     timestamp := to_u8 (Z.lor 0x80 (Z.land temp 0x003f));
     status := 0x90;
     note := note;
     velocity := velocity |}.

(** The assignments of [midi_note_off] to its [static midi_data_t note_off]. *)
Definition note_off_packet (ms note velocity : Z) : midi_event_packet_t :=
  let temp := Z.land ms 0x00001fff in
  {| header := to_u8 (Z.lor 0x80 (Z.shiftr temp 7));
     timestamp := to_u8 (Z.lor 0x80 (Z.land temp 0x003f));
     status := 0x80;
     note := note;
     velocity := velocity |}.

(** ** What the sketch asks of the vendor SDK *)

(** The SDK's named constants the sketch passes along.  Their numeric values
    belong to the SDK headers; flag sets joined with [|] in the source are
    kept as the list of the flags joined. *)
Inductive sdk_constant : Type :=
| sl_bt_gattdb_primary_service
| SL_BT_GATTDB_ADVERTISED_SERVICE
| SL_BT_GATTDB_CHARACTERISTIC_READ
| SL_BT_GATTDB_CHARACTERISTIC_WRITE
| SL_BT_GATTDB_CHARACTERISTIC_NOTIFY
| sl_bt_gattdb_fixed_length_value
| sl_bt_advertiser_general_discoverable
| sl_bt_advertiser_connectable_scannable.

(** Every call that leaves the sketch, with its by-value arguments.  Pointer
    arguments that carry data in are given as the bytes pointed to; pointer
    arguments that carry a handle out are answered in the [Response]. *)
Inductive Call : Type :=
| Serial_begin (baud : Z)
| Serial_println (s : string)
| Serial_printf (fmt : string) (args : list Z)
| sl_bt_gattdb_new_session
| sl_bt_gattdb_add_service
    (session : Z) (type property : sdk_constant) (uuid_len : Z) (uuid : list Z)
| sl_bt_gattdb_add_uuid16_characteristic
    (session service : Z) (property : list sdk_constant) (security flag : Z)
    (uuid : list Z) (value_type : sdk_constant) (maxlen value_len : Z)
    (value : list Z)
| sl_bt_gattdb_add_uuid128_characteristic
    (session service : Z) (property : list sdk_constant) (security flag : Z)
    (uuid : list Z) (value_type : sdk_constant) (maxlen value_len : Z)
    (value : list Z)
| sl_bt_gattdb_start_service (session service : Z)
| sl_bt_gattdb_commit (session : Z)
| sl_bt_advertiser_create_set
| sl_bt_advertiser_set_timing
    (handle interval_min interval_max duration maxevents : Z)
| sl_bt_legacy_advertiser_generate_data (handle : Z) (discover : sdk_constant)
| sl_bt_legacy_advertiser_start (handle : Z) (connect : sdk_constant)
| sl_bt_gatt_server_send_notification
    (connection characteristic len : Z) (value : list Z).

(** What a stack call hands back: its [sl_status_t], and the value it left
    in its out-parameter, if it wrote one. *)
Record Response : Type := {
  sc : Z;
  out : option Z
}.

Definition SL_STATUS_OK : Z := 0.

(** The environment of the sketch.  [stack] answers a call given the calls
    made so far; [assert_fatal] tells for which status the SDK macro
    [app_assert_status] stops the program; the two sleeptimer functions are
    the SDK's. *)
Record Platform : Type := {
  stack : list Call -> Call -> Response;
  assert_fatal : Z -> bool;
  sl_sleeptimer_get_tick_count : list Call -> Z;
  sl_sleeptimer_tick_to_ms : Z -> Z
}.

(** ** Global and function-static variables of the sketch *)

Record Globals : Type := {
  conn_handle : Z;
  note_to_send : Z;
  note_velocity : Z;
  note_on_event : bool;
  note_off_event : bool;
  gattdb_session_id : Z;
  generic_access_service_handle : Z;
  name_characteristic_handle : Z;
  midi_service_handle : Z;
  midi_report_characteristic_handle : Z;
  advertising_set_handle : Z;
  init : bool
}.

(** The values the C initialisers give. *)
Definition initial_globals : Globals :=
  {| conn_handle := 0xFF;
     note_to_send := 0;
     note_velocity := 0;
     note_on_event := false;
     note_off_event := false;
     gattdb_session_id := 0;
     generic_access_service_handle := 0;
     name_characteristic_handle := 0;
     midi_service_handle := 0;
     midi_report_characteristic_handle := 0;
     advertising_set_handle := 0xff;
     init := true |}.

Definition set_conn_handle (v : Z) (g : Globals) : Globals :=
  {| conn_handle := v; note_to_send := note_to_send g;
     note_velocity := note_velocity g; note_on_event := note_on_event g;
     note_off_event := note_off_event g;
     gattdb_session_id := gattdb_session_id g;
     generic_access_service_handle := generic_access_service_handle g;
     name_characteristic_handle := name_characteristic_handle g;
     midi_service_handle := midi_service_handle g;
     midi_report_characteristic_handle := midi_report_characteristic_handle g;
     advertising_set_handle := advertising_set_handle g; init := init g |}.

Definition set_note_to_send (v : Z) (g : Globals) : Globals :=
  {| conn_handle := conn_handle g; note_to_send := v;
     note_velocity := note_velocity g; note_on_event := note_on_event g;
     note_off_event := note_off_event g;
     gattdb_session_id := gattdb_session_id g;
     generic_access_service_handle := generic_access_service_handle g;
     name_characteristic_handle := name_characteristic_handle g;
     midi_service_handle := midi_service_handle g;
     midi_report_characteristic_handle := midi_report_characteristic_handle g;
     advertising_set_handle := advertising_set_handle g; init := init g |}.

Definition set_note_velocity (v : Z) (g : Globals) : Globals :=
  {| conn_handle := conn_handle g; note_to_send := note_to_send g;
     note_velocity := v; note_on_event := note_on_event g;
     note_off_event := note_off_event g;
     gattdb_session_id := gattdb_session_id g;
     generic_access_service_handle := generic_access_service_handle g;
     name_characteristic_handle := name_characteristic_handle g;
     midi_service_handle := midi_service_handle g;
     midi_report_characteristic_handle := midi_report_characteristic_handle g;
     advertising_set_handle := advertising_set_handle g; init := init g |}.

Definition set_note_on_event (v : bool) (g : Globals) : Globals :=
  {| conn_handle := conn_handle g; note_to_send := note_to_send g;
     note_velocity := note_velocity g; note_on_event := v;
     note_off_event := note_off_event g;
     gattdb_session_id := gattdb_session_id g;
     generic_access_service_handle := generic_access_service_handle g;
     name_characteristic_handle := name_characteristic_handle g;
     midi_service_handle := midi_service_handle g;
     midi_report_characteristic_handle := midi_report_characteristic_handle g;
     advertising_set_handle := advertising_set_handle g; init := init g |}.

Definition set_note_off_event (v : bool) (g : Globals) : Globals :=
  {| conn_handle := conn_handle g; note_to_send := note_to_send g;
     note_velocity := note_velocity g; note_on_event := note_on_event g;
     note_off_event := v;
     gattdb_session_id := gattdb_session_id g;
     generic_access_service_handle := generic_access_service_handle g;
     name_characteristic_handle := name_characteristic_handle g;
     midi_service_handle := midi_service_handle g;
     midi_report_characteristic_handle := midi_report_characteristic_handle g;
     advertising_set_handle := advertising_set_handle g; init := init g |}.

Definition set_gattdb_session_id (v : Z) (g : Globals) : Globals :=
  {| conn_handle := conn_handle g; note_to_send := note_to_send g;
     note_velocity := note_velocity g; note_on_event := note_on_event g;
     note_off_event := note_off_event g;
     gattdb_session_id := v;
     generic_access_service_handle := generic_access_service_handle g;
     name_characteristic_handle := name_characteristic_handle g;
     midi_service_handle := midi_service_handle g;
     midi_report_characteristic_handle := midi_report_characteristic_handle g;
     advertising_set_handle := advertising_set_handle g; init := init g |}.

Definition set_generic_access_service_handle (v : Z) (g : Globals) : Globals :=
  {| conn_handle := conn_handle g; note_to_send := note_to_send g;
     note_velocity := note_velocity g; note_on_event := note_on_event g;
     note_off_event := note_off_event g;
     gattdb_session_id := gattdb_session_id g;
     generic_access_service_handle := v;
     name_characteristic_handle := name_characteristic_handle g;
     midi_service_handle := midi_service_handle g;
     midi_report_characteristic_handle := midi_report_characteristic_handle g;
     advertising_set_handle := advertising_set_handle g; init := init g |}.

Definition set_name_characteristic_handle (v : Z) (g : Globals) : Globals :=
  {| conn_handle := conn_handle g; note_to_send := note_to_send g;
     note_velocity := note_velocity g; note_on_event := note_on_event g;
     note_off_event := note_off_event g;
     gattdb_session_id := gattdb_session_id g;
     generic_access_service_handle := generic_access_service_handle g;
     name_characteristic_handle := v;
     midi_service_handle := midi_service_handle g;
     midi_report_characteristic_handle := midi_report_characteristic_handle g;
     advertising_set_handle := advertising_set_handle g; init := init g |}.

Definition set_midi_service_handle (v : Z) (g : Globals) : Globals :=
  {| conn_handle := conn_handle g; note_to_send := note_to_send g;
     note_velocity := note_velocity g; note_on_event := note_on_event g;
     note_off_event := note_off_event g;
     gattdb_session_id := gattdb_session_id g;
     generic_access_service_handle := generic_access_service_handle g;
     name_characteristic_handle := name_characteristic_handle g;
     midi_service_handle := v;
     midi_report_characteristic_handle := midi_report_characteristic_handle g;
     advertising_set_handle := advertising_set_handle g; init := init g |}.

Definition set_midi_report_characteristic_handle (v : Z) (g : Globals)
  : Globals :=
  {| conn_handle := conn_handle g; note_to_send := note_to_send g;
     note_velocity := note_velocity g; note_on_event := note_on_event g;
     note_off_event := note_off_event g;
     gattdb_session_id := gattdb_session_id g;
     generic_access_service_handle := generic_access_service_handle g;
     name_characteristic_handle := name_characteristic_handle g;
     midi_service_handle := midi_service_handle g;
     midi_report_characteristic_handle := v;
     advertising_set_handle := advertising_set_handle g; init := init g |}.

Definition set_advertising_set_handle (v : Z) (g : Globals) : Globals :=
  {| conn_handle := conn_handle g; note_to_send := note_to_send g;
     note_velocity := note_velocity g; note_on_event := note_on_event g;
     note_off_event := note_off_event g;
     gattdb_session_id := gattdb_session_id g;
     generic_access_service_handle := generic_access_service_handle g;
     name_characteristic_handle := name_characteristic_handle g;
     midi_service_handle := midi_service_handle g;
     midi_report_characteristic_handle := midi_report_characteristic_handle g;
     advertising_set_handle := v; init := init g |}.

Definition set_init (v : bool) (g : Globals) : Globals :=
  {| conn_handle := conn_handle g; note_to_send := note_to_send g;
     note_velocity := note_velocity g; note_on_event := note_on_event g;
     note_off_event := note_off_event g;
     gattdb_session_id := gattdb_session_id g;
     generic_access_service_handle := generic_access_service_handle g;
     name_characteristic_handle := name_characteristic_handle g;
     midi_service_handle := midi_service_handle g;
     midi_report_characteristic_handle := midi_report_characteristic_handle g;
     advertising_set_handle := advertising_set_handle g; init := v |}.

(** ** Execution: memory, the calls made so far, and halting *)

Record World : Type := {
  mem : Globals;
  trace : list Call
}.

(** A routine either returns, or is stopped for good by a failed
    [app_assert_status]. *)
Inductive Outcome (A : Type) : Type :=
| Ret (a : A) (w : World)
| Halt (w : World).
Arguments Ret {A} a w.
Arguments Halt {A} w.

Definition M (A : Type) : Type := World -> Outcome A.

Definition ret {A : Type} (a : A) : M A := fun w => Ret a w.

Definition bind {A B : Type} (first : M A) (next : A -> M B) : M B :=
  fun w => match first w with
           | Ret a w' => next a w'
           | Halt w' => Halt w'
           end.

Declare Scope sketch_scope.
Delimit Scope sketch_scope with sketch.
Notation "x <- c ;; k" := (bind c (fun x => k))
  (at level 61, c at next level, right associativity) : sketch_scope.
Notation "c ;; k" := (bind c (fun _ => k))
  (at level 61, right associativity) : sketch_scope.
Open Scope sketch_scope.

Definition get : M Globals := fun w => Ret (mem w) w.

Definition modify (f : Globals -> Globals) : M unit :=
  fun w => Ret tt {| mem := f (mem w); trace := trace w |}.

(** A [uint8_t] / [uint16_t] out-parameter after a call. *)
Definition store_u8 (old : Z) (r : Response) : Z :=
  match out r with Some v => to_u8 v | None => old end.

Definition store_u16 (old : Z) (r : Response) : Z :=
  match out r with Some v => to_u16 v | None => old end.

(** [sizeof] of a byte array. *)
Definition sizeof (bytes : list Z) : Z := Z.of_nat (List.length bytes).

Definition bytes_of_string (s : string) : list Z :=
  List.map (fun a => Z.of_N (Ascii.N_of_ascii a)) (list_ascii_of_string s).

(** [advertised_name] without its terminating NUL, i.e. the
    [sizeof(advertised_name) - 1] bytes the sketch hands over. *)
Definition advertised_name : list Z := bytes_of_string "MIDI BLE Example".

Definition generic_access_service_uuid : list Z := [0x00; 0x18].
Definition device_name_characteristic_uuid : list Z := [0x00; 0x2A].
Definition midi_service_uuid : list Z :=
  [0x00; 0xC7; 0xC4; 0x4E; 0xE3; 0x6C; 0x51; 0xA7;
   0x33; 0x4B; 0xE8; 0xED; 0x5A; 0x0E; 0xB8; 0x03].
Definition midi_report_characteristic_uuid : list Z :=
  [0xF3; 0x6B; 0x10; 0x9D; 0x66; 0xF2; 0xA9; 0xA1;
   0x12; 0x41; 0x68; 0x38; 0xDB; 0xE5; 0x72; 0x77].

(** Messages for which the MIDI library invokes a registered callback. *)
Inductive MidiMessage : Type :=
| NoteOn (channel pitch velocity : Z)
| NoteOff (channel pitch velocity : Z).

(** [sl_bt_msg_t], by [SL_BT_MSG_ID]; a connection-opened event carries
    [evt->data.evt_connection_opened.connection]. *)
Inductive sl_bt_msg_t : Type :=
| sl_bt_evt_system_boot_id
| sl_bt_evt_connection_opened_id (connection : Z)
| sl_bt_evt_connection_closed_id
| sl_bt_evt_gatt_server_attribute_value_id
| sl_bt_evt_other (id : Z).

(** ** The sketch *)

Section Sketch.

Variable P : Platform.

(** A call into the Bluetooth stack: logged, and answered by the stack. *)
Definition call (c : Call) : M Response :=
  fun w => Ret (stack P (trace w) c)
               {| mem := mem w; trace := trace w ++ [c] |}.

(** Output on the debug serial port: logged, nothing comes back. *)
Definition serial (c : Call) : M unit :=
  fun w => Ret tt {| mem := mem w; trace := trace w ++ [c] |}.

(** The SDK macro: execution goes on, or never leaves the macro. *)
Definition app_assert_status (s : Z) : M unit :=
  fun w => if assert_fatal P s then Halt w else Ret tt w.

(** [uint32_t tick = sl_sleeptimer_get_tick_count();] *)
Definition get_tick_count : M Z :=
  fun w => Ret (to_u32 (sl_sleeptimer_get_tick_count P (trace w))) w.

Definition handleNoteOn (channel pitch velocity : Z) : M unit :=
  modify (set_note_to_send pitch) ;;
  modify (set_note_velocity velocity) ;;
  modify (set_note_on_event true) ;;
  serial (Serial_printf "Note on: channel: %d, pitch: %d, velocity: %d\r\n"
                        [channel; pitch; velocity]).

Definition handleNoteOff (channel pitch velocity : Z) : M unit :=
  modify (set_note_to_send pitch) ;;
  modify (set_note_velocity velocity) ;;
  modify (set_note_off_event true) ;;
  serial (Serial_printf "Note off: channel: %d, pitch: %d, velocity: %d\r\n"
                        [channel; pitch; velocity]).

Definition setup : M unit :=
  serial (Serial_begin 115200) ;;
  serial (Serial_println "Silicon Labs MIDI BLE example") ;;
  serial (Serial_println "MIDI RECV start").

Definition midi_note_on (note velocity : Z) : M unit :=
  tick <- get_tick_count ;;
  let temp := to_u32 (sl_sleeptimer_tick_to_ms P tick) in
  let note_on := note_on_packet temp note velocity in
  g <- get ;;
  _ <- call (sl_bt_gatt_server_send_notification
               (conn_handle g) (midi_report_characteristic_handle g)
               5 (payload note_on)) ;;
  ret tt.

Definition midi_note_off (note velocity : Z) : M unit :=
  tick <- get_tick_count ;;
  let temp := to_u32 (sl_sleeptimer_tick_to_ms P tick) in
  let note_off := note_off_packet temp note velocity in
  g <- get ;;
  _ <- call (sl_bt_gatt_server_send_notification
               (conn_handle g) (midi_report_characteristic_handle g)
               5 (payload note_off)) ;;
  ret tt.

(** [midiA.read()]: the library hands each parsed note message to the
    callback registered for it in [setup]. *)
Fixpoint midiA_read (incoming : list MidiMessage) : M unit :=
  match incoming with
  | [] => ret tt
  | NoteOn channel pitch velocity :: rest =>
      handleNoteOn channel pitch velocity ;; midiA_read rest
  | NoteOff channel pitch velocity :: rest =>
      handleNoteOff channel pitch velocity ;; midiA_read rest
  end.

Definition loop (incoming : list MidiMessage) : M unit :=
  midiA_read incoming ;;
  g <- get ;;
  (if note_on_event g then
     modify (set_note_on_event false) ;;
     g <- get ;;
     midi_note_on (note_to_send g) (note_velocity g)
   else ret tt) ;;
  g <- get ;;
  (if note_off_event g then
     modify (set_note_off_event false) ;;
     g <- get ;;
     midi_note_off (note_to_send g) (note_velocity g)
   else ret tt).

Definition ble_start_advertising : M unit :=
  g <- get ;;
  (if init g then
     r <- call sl_bt_advertiser_create_set ;;
     modify (fun g =>
               set_advertising_set_handle
                 (store_u8 (advertising_set_handle g) r) g) ;;
     app_assert_status (sc r) ;;
     g <- get ;;
     r <- call (sl_bt_advertiser_set_timing
                  (advertising_set_handle g) 160 160 0 0) ;;
     app_assert_status (sc r) ;;
     modify (set_init false)
   else ret tt) ;;
  g <- get ;;
  r <- call (sl_bt_legacy_advertiser_generate_data
               (advertising_set_handle g)
               sl_bt_advertiser_general_discoverable) ;;
  app_assert_status (sc r) ;;
  r <- call (sl_bt_legacy_advertiser_start
               (advertising_set_handle g)
               sl_bt_advertiser_connectable_scannable) ;;
  app_assert_status (sc r).

Definition ble_initialize_gatt_db : M unit :=
  r <- call sl_bt_gattdb_new_session ;;
  modify (fun g => set_gattdb_session_id
                     (store_u16 (gattdb_session_id g) r) g) ;;
  app_assert_status (sc r) ;;
  g <- get ;;
  r <- call (sl_bt_gattdb_add_service
               (gattdb_session_id g)
               sl_bt_gattdb_primary_service
               SL_BT_GATTDB_ADVERTISED_SERVICE
               (sizeof generic_access_service_uuid)
               generic_access_service_uuid) ;;
  modify (fun g => set_generic_access_service_handle
                     (store_u16 (generic_access_service_handle g) r) g) ;;
  app_assert_status (sc r) ;;
  g <- get ;;
  r <- call (sl_bt_gattdb_add_uuid16_characteristic
               (gattdb_session_id g)
               (generic_access_service_handle g)
               [SL_BT_GATTDB_CHARACTERISTIC_READ]
               0x00
               0x00
               device_name_characteristic_uuid
               sl_bt_gattdb_fixed_length_value
               (sizeof advertised_name)
               (sizeof advertised_name)
               advertised_name) ;;
  modify (fun g => set_name_characteristic_handle
                     (store_u16 (name_characteristic_handle g) r) g) ;;
  app_assert_status (sc r) ;;
  g <- get ;;
  r <- call (sl_bt_gattdb_start_service
               (gattdb_session_id g) (generic_access_service_handle g)) ;;
  app_assert_status (sc r) ;;
  g <- get ;;
  r <- call (sl_bt_gattdb_add_service
               (gattdb_session_id g)
               sl_bt_gattdb_primary_service
               SL_BT_GATTDB_ADVERTISED_SERVICE
               (sizeof midi_service_uuid)
               midi_service_uuid) ;;
  modify (fun g => set_midi_service_handle
                     (store_u16 (midi_service_handle g) r) g) ;;
  app_assert_status (sc r) ;;
  let midi_char_init_value := 0 in
  g <- get ;;
  r <- call (sl_bt_gattdb_add_uuid128_characteristic
               (gattdb_session_id g)
               (midi_service_handle g)
               [SL_BT_GATTDB_CHARACTERISTIC_READ;
                SL_BT_GATTDB_CHARACTERISTIC_NOTIFY;
                SL_BT_GATTDB_CHARACTERISTIC_WRITE]
               0x00
               0x00
               midi_report_characteristic_uuid
               sl_bt_gattdb_fixed_length_value
               1
               (sizeof [midi_char_init_value])
               [midi_char_init_value]) ;;
  modify (fun g => set_midi_report_characteristic_handle
                     (store_u16 (midi_report_characteristic_handle g) r) g) ;;
  g <- get ;;
  r <- call (sl_bt_gattdb_start_service
               (gattdb_session_id g) (midi_service_handle g)) ;;
  app_assert_status (sc r) ;;
  g <- get ;;
  r <- call (sl_bt_gattdb_commit (gattdb_session_id g)) ;;
  app_assert_status (sc r).

Definition sl_bt_on_event (evt : sl_bt_msg_t) : M unit :=
  match evt with
  | sl_bt_evt_system_boot_id =>
      serial (Serial_begin 115200) ;;
      serial (Serial_println "BLE stack booted") ;;
      ble_initialize_gatt_db ;;
      ble_start_advertising ;;
      serial (Serial_println "BLE advertisement started")
  | sl_bt_evt_connection_opened_id connection =>
      serial (Serial_println "BLE connection opened") ;;
      modify (set_conn_handle (to_u8 connection))
  | sl_bt_evt_connection_closed_id =>
      serial (Serial_println "BLE connection closed") ;;
      ble_start_advertising ;;
      serial (Serial_println "BLE advertisement restarted")
  | sl_bt_evt_gatt_server_attribute_value_id => ret tt
  | sl_bt_evt_other _ => ret tt
  end.

(** ** The device as a whole *)

(** What can happen to the running device: the stack dispatches an event to
    [sl_bt_on_event], or the Arduino core runs [loop] once more, the MIDI
    library finding [incoming] on the wire. *)
Inductive Input : Type :=
| StackEvent (evt : sl_bt_msg_t)
| LoopPass (incoming : list MidiMessage).

Record Machine : Type := {
  world : World;
  stuck : bool
}.

Definition handle (i : Input) : M unit :=
  match i with
  | StackEvent evt => sl_bt_on_event evt
  | LoopPass incoming => loop incoming
  end.

(** Once an assertion has stopped the program nothing runs any more. *)
Definition step (m : Machine) (i : Input) : Machine :=
  if stuck m then m
  else match handle i (world m) with
       | Ret _ w => {| world := w; stuck := false |}
       | Halt w => {| world := w; stuck := true |}
       end.

Definition run (m : Machine) (inputs : list Input) : Machine :=
  fold_left step inputs m.

End Sketch.

(** Power-on: the initialised globals, nothing called yet. *)
Definition initial_world : World :=
  {| mem := initial_globals; trace := [] |}.

Definition power_on : Machine :=
  {| world := initial_world; stuck := false |}.

(** ** Observations on the log of calls *)

Definition is_create_set (c : Call) : bool :=
  match c with sl_bt_advertiser_create_set => true | _ => false end.

Definition is_set_timing (c : Call) : bool :=
  match c with sl_bt_advertiser_set_timing _ _ _ _ _ => true | _ => false end.

Definition is_generate_data (c : Call) : bool :=
  match c with
  | sl_bt_legacy_advertiser_generate_data _ _ => true
  | _ => false
  end.

Definition is_advertiser_start (c : Call) : bool :=
  match c with sl_bt_legacy_advertiser_start _ _ => true | _ => false end.

Definition is_send_notification (c : Call) : bool :=
  match c with
  | sl_bt_gatt_server_send_notification _ _ _ _ => true
  | _ => false
  end.

Definition is_serial (c : Call) : bool :=
  match c with
  | Serial_begin _ | Serial_println _ | Serial_printf _ _ => true
  | _ => false
  end.

Definition count (f : Call -> bool) (t : list Call) : nat :=
  List.length (List.filter f t).

(** The calls into the Bluetooth stack, debug output left out. *)
Definition stack_calls (t : list Call) : list Call :=
  List.filter (fun c => negb (is_serial c)) t.

(** The value length the MIDI data characteristic was declared with, read
    off the log. *)
Fixpoint midi_characteristic_maxlen (t : list Call) : option Z :=
  match t with
  | [] => None
  | sl_bt_gattdb_add_uuid128_characteristic _ _ _ _ _ _ _ maxlen _ _ :: _ =>
      Some maxlen
  | _ :: rest => midi_characteristic_maxlen rest
  end.

(** ** The encoder as the specification words it *)

Inductive NoteKind : Type := On | Off.

Definition spec_encode (kind : NoteKind) (note velocity nowMillis : Z)
  : list Z :=
  let t := Z.land nowMillis 0x1FFF in
  [ Z.lor 0x80 (Z.shiftr t 7);
    Z.lor 0x80 (Z.land t 0x3F);
    match kind with On => 0x90 | Off => 0x80 end;
    note;
    velocity ].

(** The sketch's routine for each kind. *)
Definition packet_of (kind : NoteKind) (ms note velocity : Z)
  : midi_event_packet_t :=
  match kind with
  | On => note_on_packet ms note velocity
  | Off => note_off_packet ms note velocity
  end.

Definition midi_note (P : Platform) (kind : NoteKind) : Z -> Z -> M unit :=
  match kind with
  | On => midi_note_on P
  | Off => midi_note_off P
  end.

(** The millisecond count a note routine works with when it is entered
    after the calls [t]. *)
Definition now_ms (P : Platform) (t : list Call) : Z :=
  to_u32 (sl_sleeptimer_tick_to_ms P
            (to_u32 (sl_sleeptimer_get_tick_count P t))).

(** The notification a note routine entered in world [w] sends. *)
Definition notification (P : Platform) (kind : NoteKind) (note velocity : Z)
  (w : World) : Call :=
  sl_bt_gatt_server_send_notification
    (conn_handle (mem w)) (midi_report_characteristic_handle (mem w)) 5
    (payload (packet_of kind (now_ms P (trace w)) note velocity)).

(** The note events the next pass of [loop] will pick up, in the order it
    picks them up, with the payload it will read for each. *)
Definition pending (g : Globals) : list (NoteKind * Z * Z) :=
  (if note_on_event g then [(On, note_to_send g, note_velocity g)] else [])
  ++ (if note_off_event g then [(Off, note_to_send g, note_velocity g)]
      else []).

(** ** Concrete platforms *)

Definition ok_response : Response := {| sc := SL_STATUS_OK; out := Some 1 |}.
Definition failed_response : Response := {| sc := 1; out := None |}.

(** Modelled from the spec: the [app_assert_status] macro of the vendor SDK,
    whose definition is not part of the sketch.  "A non-success status from
    initial setup (set creation, timing configuration, attribute commit) is
    fatal and halts the system." *)
Definition halt_on_failure (s : Z) : bool := negb (s =? SL_STATUS_OK).

(** A stack that grants everything, a clock that reads 5000 ticks of 1 ms. *)
Definition friendly : Platform :=
  {| stack := fun _ _ => ok_response;
     assert_fatal := halt_on_failure;
     sl_sleeptimer_get_tick_count := fun _ => 5000;
     sl_sleeptimer_tick_to_ms := fun tick => tick |}.

(** A stack that grants everything except a second and later request to
    generate advertising data. *)
Definition flaky_stack (history : list Call) (c : Call) : Response :=
  match c with
  | sl_bt_legacy_advertiser_generate_data _ _ =>
      if existsb is_generate_data history then failed_response
      else ok_response
  | _ => ok_response
  end.

Definition flaky : Platform :=
  {| stack := flaky_stack;
     assert_fatal := halt_on_failure;
     sl_sleeptimer_get_tick_count := fun _ => 5000;
     sl_sleeptimer_tick_to_ms := fun tick => tick |}.

(** What [loop] does once [midiA.read()] is back in world [w1]. *)
Definition after_read (P : Platform) (w1 : World) : World :=
  let w2 :=
    if note_on_event (mem w1) then
      {| mem := set_note_on_event false (mem w1);
         trace := trace w1 ++
           [notification P On (note_to_send (mem w1)) (note_velocity (mem w1))
              {| mem := set_note_on_event false (mem w1);
                 trace := trace w1 |}] |}
    else w1 in
  if note_off_event (mem w2) then
    {| mem := set_note_off_event false (mem w2);
       trace := trace w2 ++
         [notification P Off (note_to_send (mem w2)) (note_velocity (mem w2))
            {| mem := set_note_off_event false (mem w2);
               trace := trace w2 |}] |}
  else w2.

(** ** Outcomes, classes of calls, and well-behaved platforms *)

Definition final {A : Type} (o : Outcome A) : World :=
  match o with Ret _ w => w | Halt w => w end.

Definition halted {A : Type} (o : Outcome A) : bool :=
  match o with Ret _ _ => false | Halt _ => true end.

Definition is_gattdb (c : Call) : bool :=
  match c with
  | sl_bt_gattdb_new_session
  | sl_bt_gattdb_add_service _ _ _ _ _
  | sl_bt_gattdb_add_uuid16_characteristic _ _ _ _ _ _ _ _ _ _
  | sl_bt_gattdb_add_uuid128_characteristic _ _ _ _ _ _ _ _ _ _
  | sl_bt_gattdb_start_service _ _
  | sl_bt_gattdb_commit _ => true
  | _ => false
  end.

(** The sizes the sketch declares: for the MIDI data characteristic, the
    only 128-bit-UUID characteristic it creates, and for a notification. *)
Definition declared_sizes (c : Call) : Prop :=
  match c with
  | sl_bt_gattdb_add_uuid128_characteristic
      _ _ _ _ _ _ value_type maxlen value_len value =>
      value_type = sl_bt_gattdb_fixed_length_value
      /\ maxlen = 1 /\ value_len = 1 /\ value = [0]
  | sl_bt_gatt_server_send_notification _ _ len value =>
      len = 5 /\ List.length value = 5%nat
  | _ => True
  end.

(** A platform on which no call of the stack ever comes back with a status
    that [app_assert_status] stops on. *)
Definition benign (P : Platform) : Prop :=
  forall (history : list Call) (c : Call),
    assert_fatal P (sc (stack P history c)) = false.

(** No advertising set created yet, or one, and then either the flag
    [init] is down or the program has stopped. *)
Definition set_created_once (m : Machine) : Prop :=
  let t := trace (world m) in
  (count is_create_set t <= 1)%nat
  /\ (count is_set_timing t <= 1)%nat
  /\ (init (mem (world m)) = true -> stuck m = false ->
      count is_create_set t = 0%nat /\ count is_set_timing t = 0%nat).

(** What one input may do to the log and to [init]: it appends calls with
    the declared sizes, and either creates no advertising set, or, [init]
    being up, creates exactly one and then stops or takes [init] down. *)
Definition step_effect (P : Platform) (w : World) (o : Outcome unit) : Prop :=
  exists added,
    trace (final o) = trace w ++ added
    /\ Forall declared_sizes added
    /\ ((init (mem (final o)) = init (mem w)
         /\ count is_create_set added = 0%nat
         /\ count is_set_timing added = 0%nat)
        \/ (init (mem w) = true
            /\ count is_create_set added = 1%nat
            /\ (count is_set_timing added <= 1)%nat
            /\ (halted o = true \/ init (mem (final o)) = false))).

(** The device booted and advertising, nobody connected yet. *)
Definition advertising_friendly : Machine :=
  run friendly power_on [StackEvent sl_bt_evt_system_boot_id].

(** The device booted and with connection 3 open, on either platform. *)
Definition connected_friendly : Machine :=
  run friendly power_on
    [StackEvent sl_bt_evt_system_boot_id;
     StackEvent (sl_bt_evt_connection_opened_id 3)].

Definition connected_flaky : Machine :=
  run flaky power_on
    [StackEvent sl_bt_evt_system_boot_id;
     StackEvent (sl_bt_evt_connection_opened_id 3)].

(** ** Further observations and platforms *)

Definition pitch_velocity (m : MidiMessage) : Z * Z :=
  match m with
  | NoteOn _ pitch velocity | NoteOff _ pitch velocity => (pitch, velocity)
  end.

Definition is_note_on (m : MidiMessage) : bool :=
  match m with NoteOn _ _ _ => true | NoteOff _ _ _ => false end.

Definition is_note_off (m : MidiMessage) : bool :=
  match m with NoteOn _ _ _ => false | NoteOff _ _ _ => true end.

Definition sent_on (conn : Z) (c : Call) : Prop :=
  match c with
  | sl_bt_gatt_server_send_notification connection _ _ _ => connection = conn
  | _ => True
  end.

Definition advertises_on (h : Z) (c : Call) : Prop :=
  match c with
  | sl_bt_advertiser_create_set => False
  | sl_bt_advertiser_set_timing _ _ _ _ _ => False
  | sl_bt_legacy_advertiser_generate_data handle _ => handle = h
  | sl_bt_legacy_advertiser_start handle _ => handle = h
  | _ => True
  end.

Definition is_advertiser (c : Call) : bool :=
  is_create_set c || is_set_timing c || is_generate_data c
  || is_advertiser_start c.

Definition is_connection_opened (i : Input) : bool :=
  match i with
  | StackEvent (sl_bt_evt_connection_opened_id _) => true
  | _ => false
  end.

(** The value [conn_handle] takes when input [i] is handled to the end. *)
Definition handle_after (i : Input) (old : Z) : Z :=
  match i with
  | StackEvent (sl_bt_evt_connection_opened_id connection) => to_u8 connection
  | _ => old
  end.

Definition latest_opened (inputs : list Input) : Z :=
  fold_left (fun h i => handle_after i h) inputs 0xFF.

Definition is_note_notification (conn chr n v : Z) (c : Call) : Prop :=
  exists kind ms,
    c = sl_bt_gatt_server_send_notification conn chr 5
          (payload (packet_of kind ms n v)).

Definition well_formed_notification (c : Call) : Prop :=
  match c with
  | sl_bt_gatt_server_send_notification _ _ len value =>
      len = 5
      /\ exists h t s n v,
           value = [h; t; s; n; v]
           /\ 0x80 <= h <= 0xBF /\ 0x80 <= t <= 0xBF
           /\ (s = 0x90 \/ s = 0x80)
           /\ is_byte n /\ is_byte v
  | _ => True
  end.

Definition byte_message (m : MidiMessage) : Prop :=
  is_byte (fst (pitch_velocity m)) /\ is_byte (snd (pitch_velocity m)).

Definition byte_input (i : Input) : Prop :=
  match i with
  | StackEvent _ => True
  | LoopPass incoming => Forall byte_message incoming
  end.

Definition is_new_session (c : Call) : bool :=
  match c with sl_bt_gattdb_new_session => true | _ => false end.

Definition is_commit (c : Call) : bool :=
  match c with sl_bt_gattdb_commit _ => true | _ => false end.

Definition is_midi_characteristic (c : Call) : bool :=
  match c with
  | sl_bt_gattdb_add_uuid128_characteristic _ _ _ _ _ _ _ _ _ _ => true
  | _ => false
  end.

(** Every status is acceptable to [app_assert_status], except possibly the
    one returned for the creation of the MIDI data characteristic. *)
Definition grants_all_but_characteristic (P : Platform) : Prop :=
  forall (history : list Call) (c : Call),
    is_midi_characteristic c = false ->
    assert_fatal P (sc (stack P history c)) = false.

(** A stack that refuses the MIDI data characteristic and grants the rest. *)
Definition stubborn : Platform :=
  {| stack := fun _ c =>
       if is_midi_characteristic c then failed_response else ok_response;
     assert_fatal := halt_on_failure;
     sl_sleeptimer_get_tick_count := fun _ => 5000;
     sl_sleeptimer_tick_to_ms := fun tick => tick |}.

(** A stack that refuses to open a GATT database session. *)
Definition broken : Platform :=
  {| stack := fun _ c =>
       if is_new_session c then failed_response else ok_response;
     assert_fatal := halt_on_failure;
     sl_sleeptimer_get_tick_count := fun _ => 5000;
     sl_sleeptimer_tick_to_ms := fun tick => tick |}.

Definition boot_event : Input := StackEvent sl_bt_evt_system_boot_id.

(** A short session: boot, a connection, a note pressed and released. *)
Definition played_note : list Input :=
  [boot_event;
   StackEvent (sl_bt_evt_connection_opened_id 3);
   LoopPass [NoteOn 1 60 100];
   LoopPass [NoteOff 1 60 0]].

(** Notes played with nobody ever connecting. *)
Definition played_unheard : list Input :=
  [boot_event;
   LoopPass [NoteOn 1 60 100];
   StackEvent sl_bt_evt_connection_closed_id;
   LoopPass [NoteOff 1 60 0]].

(** Two connections, each closed again. *)
Definition two_visits : list Input :=
  [boot_event;
   StackEvent (sl_bt_evt_connection_opened_id 3);
   StackEvent sl_bt_evt_connection_closed_id;
   StackEvent (sl_bt_evt_connection_opened_id 7);
   StackEvent sl_bt_evt_connection_closed_id].

(** * Properties *)

(** ** Bit-level facts about the framing *)

Lemma land_1fff_range (ms : Z) : 0 <= Z.land ms 0x1fff < 8192.
Proof.
  change 0x1fff with (Z.ones 13).
  rewrite Z.land_ones by lia.
  change (2 ^ 13) with 8192. apply Z.mod_pos_bound. lia.
Qed.

Lemma lor_below (n a b : Z) :
  0 < n -> 0 <= a < 2 ^ n -> 0 <= b < 2 ^ n -> 0 <= Z.lor a b < 2 ^ n.
Proof.
  intros Hn [Ha0 Ha] [Hb0 Hb].
  assert (H0 : 0 <= Z.lor a b) by (apply Z.lor_nonneg; split; assumption).
  split; [exact H0|].
  destruct (Z.eq_dec (Z.lor a b) 0) as [E|E].
  - rewrite E. apply Z.pow_pos_nonneg; lia.
  - apply Z.log2_lt_pow2; [lia|].
    rewrite Z.log2_lor by assumption.
    apply Z.max_lub_lt.
    + destruct (Z.eq_dec a 0) as [->|Na]; [simpl; lia|].
      apply Z.log2_lt_pow2; lia.
    + destruct (Z.eq_dec b 0) as [->|Nb]; [simpl; lia|].
      apply Z.log2_lt_pow2; lia.
Qed.

Lemma to_u8_small (x : Z) : 0 <= x < 256 -> to_u8 x = x.
Proof.
  intros H. unfold to_u8. change 0xFF with (Z.ones 8).
  rewrite Z.land_ones by lia. apply Z.mod_small. exact H.
Qed.

Lemma header_fits (ms : Z) :
  0 <= Z.lor 0x80 (Z.shiftr (Z.land ms 0x1fff) 7) < 256.
Proof.
  pose proof (land_1fff_range ms) as Ht.
  apply (lor_below 8); [lia|lia|].
  rewrite Z.shiftr_div_pow2 by lia. change (2 ^ 7) with 128.
  change (2 ^ 8) with 256.
  split; [apply Z.div_pos; lia|].
  apply Z.div_lt_upper_bound; lia.
Qed.

Lemma timestamp_fits (ms : Z) :
  0 <= Z.lor 0x80 (Z.land (Z.land ms 0x1fff) 0x3f) < 256.
Proof.
  apply (lor_below 8); [lia|lia|].
  change 0x3f with (Z.ones 6). rewrite Z.land_ones by lia.
  change (2 ^ 8) with 256.
  pose proof (Z.mod_pos_bound (Z.land ms 0x1fff) (2 ^ 6) eq_refl) as H.
  change (2 ^ 6) with 64 in *. lia.
Qed.

Lemma to_u32_range (x : Z) : 0 <= to_u32 x < 2 ^ 32.
Proof.
  unfold to_u32. change 0xFFFFFFFF with (Z.ones 32).
  rewrite Z.land_ones by lia. apply Z.mod_pos_bound. lia.
Qed.

Lemma now_ms_range (P : Platform) (t : list Call) :
  0 <= now_ms P t < 2 ^ 32.
Proof. apply to_u32_range. Qed.

Lemma header_eq (ms : Z) :
  to_u8 (Z.lor 0x80 (Z.shiftr (Z.land ms 0x1fff) 7))
  = Z.lor 0x80 (Z.shiftr (Z.land ms 0x1fff) 7).
Proof. apply to_u8_small, header_fits. Qed.

Lemma timestamp_eq (ms : Z) :
  to_u8 (Z.lor 0x80 (Z.land (Z.land ms 0x1fff) 0x3f))
  = Z.lor 0x80 (Z.land (Z.land ms 0x1fff) 0x3f).
Proof. apply to_u8_small, timestamp_fits. Qed.

Lemma payload_spec_encode (kind : NoteKind) (ms n v : Z) :
  payload (packet_of kind ms n v) = spec_encode kind n v ms.
Proof.
  destruct kind; unfold payload, spec_encode;
    cbn [packet_of note_on_packet note_off_packet
         header timestamp status note velocity];
    rewrite header_eq, timestamp_eq; reflexivity.
Qed.

Lemma spec_encode_bytes (kind : NoteKind) (ms note velocity : Z) :
  is_byte note -> is_byte velocity ->
  Forall is_byte (spec_encode kind note velocity ms).
Proof.
  intros Hn Hv. unfold spec_encode.
  repeat (apply Forall_cons || apply Forall_nil); try assumption.
  - apply header_fits.
  - apply timestamp_fits.
  - unfold is_byte. destruct kind; lia.
Qed.

(** ** The note routines *)

Lemma midi_note_eq (P : Platform) (kind : NoteKind) (n v : Z) (w : World) :
  midi_note P kind n v w
  = Ret tt {| mem := mem w;
              trace := trace w ++ [notification P kind n v w] |}.
Proof. destruct kind; reflexivity. Qed.

(** C1: for either kind and all byte note / velocity values, the five bytes
    the sketch assembles from a millisecond count are exactly
    [0x80 | (t >> 7); 0x80 | (t & 0x3F); 0x90 or 0x80; note; velocity] with
    [t = nowMillis & 0x1FFF]; each is a byte; and the routine always returns,
    having handed exactly that payload to the stack, whatever the stack
    answers. *)
Theorem encode_is_spec_encode (kind : NoteKind) (note velocity : Z) :
  is_byte note -> is_byte velocity ->
  (forall nowMillis,
      payload (packet_of kind nowMillis note velocity)
      = [ Z.lor 0x80 (Z.shiftr (Z.land nowMillis 0x1FFF) 7);
          Z.lor 0x80 (Z.land (Z.land nowMillis 0x1FFF) 0x3F);
          match kind with On => 0x90 | Off => 0x80 end;
          note; velocity ]
      /\ Forall is_byte (payload (packet_of kind nowMillis note velocity)))
  /\ (forall (P : Platform) (w : World),
         midi_note P kind note velocity w
         = Ret tt
             {| mem := mem w;
                trace := trace w ++
                  [sl_bt_gatt_server_send_notification
                     (conn_handle (mem w))
                     (midi_report_characteristic_handle (mem w)) 5
                     (spec_encode kind note velocity
                        (now_ms P (trace w)))] |}).
Proof.
  intros Hn Hv. split.
  - intros ms. rewrite payload_spec_encode. split; [reflexivity|].
    apply spec_encode_bytes; assumption.
  - intros P w. rewrite midi_note_eq. unfold notification.
    rewrite payload_spec_encode. reflexivity.
Qed.

Lemma encode_is_spec_encode_witness :
  payload (packet_of On 5000 42 127) = [0xA7; 0x88; 0x90; 42; 127]
  /\ payload (packet_of Off 5000 42 127) = [0xA7; 0x88; 0x80; 42; 127].
Proof.
  assert (B42 : is_byte 42) by (unfold is_byte; lia).
  assert (B127 : is_byte 127) by (unfold is_byte; lia).
  split.
  - exact (proj1 (proj1 (encode_is_spec_encode On 42 127 B42 B127) 5000)).
  - exact (proj1 (proj1 (encode_is_spec_encode Off 42 127 B42 B127) 5000)).
Defined.

(** ** Reading the timestamp back *)

(** Replace [testbit] of a constant at a constant position by its value. *)
Ltac closed_bits :=
  repeat match goal with
  | |- context [Z.testbit ?c ?k] =>
      let v := eval vm_compute in (Z.testbit c k) in
      match v with
      | true => change (Z.testbit c k) with true
      | false => change (Z.testbit c k) with false
      end
  end.

(** Both sides of a bit equation at one fixed position: push [testbit]
    through the operators, evaluate it on the constants, and compare on the
    bits of [ms] that remain. *)
Ltac bit_case ms :=
  match goal with
  | |- context [Z.of_nat ?k] =>
      let v := eval vm_compute in (Z.of_nat k) in
      change (Z.of_nat k) with v in *
  end;
  repeat first [ rewrite Z.land_spec | rewrite Z.lor_spec
               | rewrite Z.shiftr_spec by lia ];
  closed_bits;
  try rewrite (Z.testbit_neg_r _ _ ltac:(lia));
  repeat match goal with
  | |- context [Z.testbit ms ?k] =>
      let k' := eval vm_compute in k in
      change (Z.testbit ms k) with (Z.testbit ms k');
      destruct (Z.testbit ms k')
  end; reflexivity.

Lemma recover_timestamp (ms : Z) :
  Z.lor (Z.shiftl (Z.land (Z.lor 0x80 (Z.shiftr (Z.land ms 0x1fff) 7)) 0x3F) 7)
        (Z.land (Z.lor 0x80 (Z.land (Z.land ms 0x1fff) 0x3f)) 0x3F)
  = Z.land ms 0x1FBF.
Proof.
  apply Z.bits_inj'; intros n Hn.
  rewrite Z.lor_spec, Z.shiftl_spec by lia.
  rewrite (Z.land_spec ms), (Z.land_spec _ 0x3F), (Z.land_spec _ 0x3F).
  destruct (Z.ltb_spec n 13) as [Hlt|Hge].
  - assert (Hk : exists k : nat, n = Z.of_nat k /\ (k < 13)%nat)
      by (exists (Z.to_nat n); lia).
    destruct Hk as (k & -> & Hk).
    do 13 (destruct k as [|k]; [bit_case ms|]).
    lia.
  - rewrite (Z.bits_above_log2 0x3F (n - 7)),
            (Z.bits_above_log2 0x3F n),
            (Z.bits_above_log2 0x1FBF n)
      by (try (change (Z.log2 0x3F) with 5);
          try (change (Z.log2 0x1FBF) with 12); lia).
    rewrite !andb_false_r. reflexivity.
Qed.

(** C5: for every millisecond count in [0, 2^32) and either kind, the value
    [((header & 0x3F) << 7) | (timestampLow & 0x3F)] read back from the
    assembled packet is [nowMillis & 0x1FBF]. *)
Theorem timestamp_round_trip (kind : NoteKind) (note velocity nowMillis : Z) :
  0 <= nowMillis < 2 ^ 32 ->
  let p := packet_of kind nowMillis note velocity in
  Z.lor (Z.shiftl (Z.land (header p) 0x3F) 7) (Z.land (timestamp p) 0x3F)
  = Z.land nowMillis 0x1FBF.
Proof.
  intros _ p. subst p.
  destruct kind; cbn [packet_of note_on_packet note_off_packet header
                      timestamp];
    rewrite header_eq, timestamp_eq; apply recover_timestamp.
Qed.

Lemma timestamp_round_trip_witness :
  0 <= 4294967295 < 2 ^ 32
  /\ (let p := packet_of On 4294967295 60 100 in
      Z.lor (Z.shiftl (Z.land (header p) 0x3F) 7) (Z.land (timestamp p) 0x3F)
      = 0x1FBF).
Proof.
  assert (R : 0 <= 4294967295 < 2 ^ 32) by (split; [lia | reflexivity]).
  split; [exact R|].
  exact (timestamp_round_trip On 60 100 4294967295 R).
Defined.

(** ** Event capture: the callbacks and the main loop *)

Lemma handleNoteOn_eq (c p v : Z) (w : World) :
  handleNoteOn c p v w
  = Ret tt
      {| mem := set_note_on_event true
                  (set_note_velocity v (set_note_to_send p (mem w)));
         trace := trace w ++
           [Serial_printf "Note on: channel: %d, pitch: %d, velocity: %d\r\n"
                          [c; p; v]] |}.
Proof. reflexivity. Qed.

Lemma handleNoteOff_eq (c p v : Z) (w : World) :
  handleNoteOff c p v w
  = Ret tt
      {| mem := set_note_off_event true
                  (set_note_velocity v (set_note_to_send p (mem w)));
         trace := trace w ++
           [Serial_printf "Note off: channel: %d, pitch: %d, velocity: %d\r\n"
                          [c; p; v]] |}.
Proof. reflexivity. Qed.

(** [midiA.read()] always comes back, and only the note variables and the
    serial log can differ afterwards. *)
Lemma midiA_read_returns (incoming : list MidiMessage) :
  forall w, exists w',
    midiA_read incoming w = Ret tt w'
    /\ conn_handle (mem w') = conn_handle (mem w)
    /\ midi_report_characteristic_handle (mem w')
       = midi_report_characteristic_handle (mem w)
    /\ advertising_set_handle (mem w') = advertising_set_handle (mem w)
    /\ init (mem w') = init (mem w)
    /\ exists added,
         trace w' = trace w ++ added
         /\ Forall (fun c => is_serial c = true) added.
Proof.
  induction incoming as [|m rest IH]; intros w.
  - exists w. cbn. repeat split; try reflexivity.
    exists []. rewrite app_nil_r. split; [reflexivity | constructor].
  - destruct m as [c p v | c p v]; cbn [midiA_read]; unfold bind.
    + rewrite handleNoteOn_eq.
      destruct (IH {| mem := set_note_on_event true
                               (set_note_velocity v
                                  (set_note_to_send p (mem w)));
                      trace := trace w ++
                        [Serial_printf
                           "Note on: channel: %d, pitch: %d, velocity: %d\r\n"
                           [c; p; v]] |})
        as (w' & E & H1 & H2 & H3 & H4 & added & Ht & Hs).
      exists w'. rewrite E. cbn in H1, H2, H3, H4, Ht.
      repeat split; try assumption.
      eexists. rewrite Ht, <- app_assoc. split; [reflexivity|].
      constructor; [reflexivity | exact Hs].
    + rewrite handleNoteOff_eq.
      destruct (IH {| mem := set_note_off_event true
                               (set_note_velocity v
                                  (set_note_to_send p (mem w)));
                      trace := trace w ++
                        [Serial_printf
                           "Note off: channel: %d, pitch: %d, velocity: %d\r\n"
                           [c; p; v]] |})
        as (w' & E & H1 & H2 & H3 & H4 & added & Ht & Hs).
      exists w'. rewrite E. cbn in H1, H2, H3, H4, Ht.
      repeat split; try assumption.
      eexists. rewrite Ht, <- app_assoc. split; [reflexivity|].
      constructor; [reflexivity | exact Hs].
Qed.

Lemma loop_eq (P : Platform) (incoming : list MidiMessage) (w w1 : World) :
  midiA_read incoming w = Ret tt w1 ->
  loop P incoming w = Ret tt (after_read P w1).
Proof.
  intros E. unfold loop, bind at 1. rewrite E.
  unfold after_read.
  destruct w1 as [g t]. destruct g. cbn.
  destruct note_on_event0, note_off_event0; reflexivity.
Qed.

(** C7: with nothing pending, two [handleNoteOn] calls before the next poll
    leave exactly one pending note-on carrying the payload of the second
    call; for [(10,5)] twice that is one pending note-on [(10,5)], which the
    next pass of [loop] sends as a single notification. *)
Theorem note_on_twice_last_write_wins
  (P : Platform) (w : World) (c1 p1 v1 c2 p2 v2 : Z) :
  pending (mem w) = [] ->
  (exists w',
      midiA_read [NoteOn c1 p1 v1; NoteOn c2 p2 v2] w = Ret tt w'
      /\ pending (mem w') = [(On, p2, v2)])
  /\ (exists w' w'',
         midiA_read [NoteOn c1 10 5; NoteOn c2 10 5] w = Ret tt w'
         /\ pending (mem w') = [(On, 10, 5)]
         /\ loop P [] w' = Ret tt w''
         /\ List.filter is_send_notification (trace w'')
            = List.filter is_send_notification (trace w)
              ++ [notification P On 10 5
                    {| mem := set_note_on_event false (mem w');
                       trace := trace w' |}]
         /\ pending (mem w'') = []).
Proof.
  intros Hp.
  assert (Hoff : note_off_event (mem w) = false).
  { unfold pending in Hp. destruct (note_off_event (mem w)); [|reflexivity].
    destruct (note_on_event (mem w)); discriminate Hp. }
  split.
  - eexists. split; [reflexivity|].
    unfold pending. cbn. rewrite Hoff. reflexivity.
  - do 2 eexists. split; [reflexivity|]. split.
    + unfold pending. cbn. rewrite Hoff. reflexivity.
    + split; [apply loop_eq; reflexivity|].
      unfold after_read, pending. cbn. rewrite Hoff. cbn.
      rewrite !filter_app. cbn. rewrite !app_nil_r, ?Hoff.
      split; reflexivity.
Qed.

Lemma note_on_twice_last_write_wins_witness :
  exists w' w'',
    midiA_read [NoteOn 1 10 5; NoteOn 1 10 5] initial_world = Ret tt w'
    /\ pending (mem w') = [(On, 10, 5)]
    /\ loop friendly [] w' = Ret tt w''
    /\ List.filter is_send_notification (trace w'')
       = [sl_bt_gatt_server_send_notification
            0xFF 0 5 [0xA7; 0x88; 0x90; 10; 5]]
    /\ pending (mem w'') = [].
Proof.
  destruct (proj2 (note_on_twice_last_write_wins
                     friendly initial_world 1 10 5 1 10 5 eq_refl))
    as (w' & w'' & E & Hp & El & Hf & Hp').
  exists w', w''. split; [exact E|]. split; [exact Hp|].
  split; [exact El|]. split; [|exact Hp'].
  rewrite Hf. injection E as <-. reflexivity.
Defined.

(** C6, as claimed, fails: a pending note-on [(10,5)] does not keep its
    payload across [handleNoteOff 1 20 0]; the loop would pick up a note-on
    [(20,0)]. *)
Lemma shared_payload_overwritten :
  ~ (forall (w : World) (p v c p' v' : Z) (w' : World),
        In (On, p, v) (pending (mem w)) ->
        handleNoteOff c p' v' w = Ret tt w' ->
        In (On, p, v) (pending (mem w'))).
Proof.
  intros claim.
  pose (w := {| mem := set_note_on_event true
                         (set_note_velocity 5
                            (set_note_to_send 10 initial_globals));
                trace := [] |}).
  specialize (claim w 10 5 1 20 0 _ (or_introl eq_refl) eq_refl).
  cbn in claim. destruct claim as [E | [E | []]]; discriminate E.
Qed.

(** C6, amended: there is one flag per kind but a single payload shared by
    both kinds.  A callback sets its own flag, leaves the other flag as it
    was, and replaces the shared payload, so every event pending afterwards
    carries the payload of the latest callback. *)
Theorem one_flag_per_kind_shared_payload (w : World) (c p' v' : Z) :
  (exists w',
      handleNoteOff c p' v' w = Ret tt w'
      /\ note_on_event (mem w') = note_on_event (mem w)
      /\ note_off_event (mem w') = true
      /\ pending (mem w')
         = (if note_on_event (mem w) then [(On, p', v')] else [])
           ++ [(Off, p', v')])
  /\ (exists w',
         handleNoteOn c p' v' w = Ret tt w'
         /\ note_off_event (mem w') = note_off_event (mem w)
         /\ note_on_event (mem w') = true
         /\ pending (mem w')
            = (On, p', v')
              :: (if note_off_event (mem w) then [(Off, p', v')] else [])).
Proof.
  split; eexists; (split; [reflexivity|]); cbn;
    (split; [reflexivity|]); (split; [reflexivity|]);
    unfold pending; cbn; reflexivity.
Qed.

(** ** Sending without a connection *)

(** C2, as claimed, fails: booted and advertising, with no connection ever
    opened and [conn_handle] still [0xFF], a note-on picked up by [loop] is
    handed to [sl_bt_gatt_server_send_notification] with connection [0xFF];
    the routine returns nothing that could tell the caller.  The same
    happens straight after power-on. *)
Lemma send_without_connection :
  stuck advertising_friendly = false
  /\ conn_handle (mem (world advertising_friendly)) = 0xFF
  /\ List.filter is_send_notification
       (trace (world (step friendly advertising_friendly
                        (LoopPass [NoteOn 1 42 127]))))
     = [sl_bt_gatt_server_send_notification
          0xFF 1 5 [0xA7; 0x88; 0x90; 42; 127]]
  /\ midi_note_on friendly 42 127 (world power_on)
     = Ret tt
         {| mem := initial_globals;
            trace := [sl_bt_gatt_server_send_notification
                        0xFF 0 5 [0xA7; 0x88; 0x90; 42; 127]] |}.
Proof. vm_compute. repeat split. Qed.

(** C2, amended: [midi_note_on] and [midi_note_off] check nothing.  In every
    world, whatever [conn_handle] holds (the initial [0xFF] included), they
    call [sl_bt_gatt_server_send_notification] exactly once, with that
    [conn_handle] as the connection, and return without a result. *)
Theorem send_is_unconditional
  (P : Platform) (kind : NoteKind) (note velocity : Z) (w : World) :
  exists value w',
    midi_note P kind note velocity w = Ret tt w'
    /\ mem w' = mem w
    /\ trace w'
       = trace w ++
         [sl_bt_gatt_server_send_notification
            (conn_handle (mem w)) (midi_report_characteristic_handle (mem w))
            5 value]
    /\ count is_send_notification (trace w')
       = S (count is_send_notification (trace w)).
Proof.
  do 2 eexists. rewrite midi_note_eq. split; [reflexivity|].
  split; [reflexivity|]. split; [reflexivity|].
  cbn [trace]. unfold count. rewrite filter_app, length_app. cbn. lia.
Qed.

(** ** One pass of the main loop *)

(** C10: whenever both flags are set once [midiA.read()] is back, that pass
    of [loop] returns having sent the note-on notification and then the
    note-off notification, nothing else, and with both flags cleared. *)
Theorem loop_sends_on_before_off
  (P : Platform) (incoming : list MidiMessage) (w w1 : World) :
  midiA_read incoming w = Ret tt w1 ->
  note_on_event (mem w1) = true ->
  note_off_event (mem w1) = true ->
  exists w',
    loop P incoming w = Ret tt w'
    /\ (let n := note_to_send (mem w1) in
        let v := note_velocity (mem w1) in
        let conn := conn_handle (mem w1) in
        let chr := midi_report_characteristic_handle (mem w1) in
        let first :=
          sl_bt_gatt_server_send_notification conn chr 5
            (payload (note_on_packet (now_ms P (trace w1)) n v)) in
        let second :=
          sl_bt_gatt_server_send_notification conn chr 5
            (payload (note_off_packet (now_ms P (trace w1 ++ [first])) n v)) in
        trace w' = trace w1 ++ [first; second])
    /\ note_on_event (mem w') = false
    /\ note_off_event (mem w') = false
    /\ pending (mem w') = [].
Proof.
  intros E Hon Hoff. eexists. split; [apply (loop_eq P _ _ _ E)|].
  unfold after_read. rewrite Hon. cbn [mem trace].
  destruct w1 as [g t]. destruct g. cbn in Hon, Hoff |- *. subst.
  cbn. rewrite <- app_assoc. repeat split.
Qed.

Lemma loop_sends_on_before_off_witness :
  exists w',
    loop friendly [NoteOn 1 60 100; NoteOff 1 60 0] initial_world = Ret tt w'
    /\ stack_calls (trace w')
       = [sl_bt_gatt_server_send_notification
            0xFF 0 5 [0xA7; 0x88; 0x90; 60; 0];
          sl_bt_gatt_server_send_notification
            0xFF 0 5 [0xA7; 0x88; 0x80; 60; 0]]
    /\ pending (mem w') = [].
Proof.
  destruct (loop_sends_on_before_off
              friendly [NoteOn 1 60 100; NoteOff 1 60 0] initial_world _
              eq_refl eq_refl eq_refl)
    as (w' & E & Ht & _ & _ & Hp).
  exists w'. split; [exact E|]. split; [|exact Hp].
  cbn in Ht. rewrite Ht. reflexivity.
Defined.

(** ** Set-up, advertising and the assertions *)

(** Run a routine symbolically, branching at every [app_assert_status]. *)
Ltac through_asserts :=
  repeat (cbn -[Z.land];
          match goal with
          | |- context [assert_fatal ?P ?s] =>
              let E := fresh "Hassert" in destruct (assert_fatal P s) eqn:E
          end); cbn -[Z.land].

Ltac unfold_sketch :=
  unfold ble_initialize_gatt_db, ble_start_advertising, bind, get, call,
    serial, modify, app_assert_status, ret.

Lemma count_app (f : Call -> bool) (t u : list Call) :
  count f (t ++ u) = (count f t + count f u)%nat.
Proof. unfold count. rewrite filter_app, length_app. reflexivity. Qed.

Lemma count_none (f : Call -> bool) (l : list Call) :
  Forall (fun c => f c = false) l -> count f l = 0%nat.
Proof.
  unfold count. induction 1 as [|c l Hc _ IH]; [reflexivity|].
  cbn. rewrite Hc. exact IH.
Qed.

(** The calls appended, each checked against the predicate asked for. *)
Ltac added_calls :=
  rewrite <- ?app_assoc; eexists; split; [reflexivity|];
  cbn [app]; repeat (apply Forall_cons || apply Forall_nil);
  cbn; repeat split.

(** [ble_initialize_gatt_db], stopped or not, touches neither [init] nor the
    connection or advertising handles, and only talks to the attribute
    database. *)
Lemma gatt_db_effect (P : Platform) (w : World) :
  let o := ble_initialize_gatt_db P w in
  init (mem (final o)) = init (mem w)
  /\ conn_handle (mem (final o)) = conn_handle (mem w)
  /\ advertising_set_handle (mem (final o)) = advertising_set_handle (mem w)
  /\ exists added,
       trace (final o) = trace w ++ added
       /\ Forall (fun c => is_gattdb c = true /\ declared_sizes c) added.
Proof.
  unfold_sketch. through_asserts.
  all: split; [reflexivity|]; split; [reflexivity|]; split; [reflexivity|].
  all: added_calls.
Qed.

(** [ble_start_advertising], stopped or not: nothing is created when [init]
    is down; when it is up the set is created once, and [init] goes down
    unless an assertion stops the routine first. *)
Lemma start_advertising_effect (P : Platform) (w : World) :
  let o := ble_start_advertising P w in
  conn_handle (mem (final o)) = conn_handle (mem w)
  /\ exists added,
       trace (final o) = trace w ++ added
       /\ Forall declared_sizes added
       /\ Forall (fun c => is_send_notification c = false) added
       /\ ((init (mem w) = false /\ init (mem (final o)) = false
            /\ count is_create_set added = 0%nat
            /\ count is_set_timing added = 0%nat)
           \/ (init (mem w) = true
               /\ count is_create_set added = 1%nat
               /\ (count is_set_timing added <= 1)%nat
               /\ (halted o = true \/ init (mem (final o)) = false))).
Proof.
  unfold_sketch. cbn -[Z.land]. destruct (init (mem w)) eqn:Hi; through_asserts.
  all: split; [reflexivity|].
  all: rewrite <- ?app_assoc; eexists; split; [reflexivity|]; cbn [app].
  all: split; [repeat (apply Forall_cons || apply Forall_nil); exact I|].
  all: split; [repeat (apply Forall_cons || apply Forall_nil); reflexivity|].
  all: first [ left; cbn; repeat split; solve [reflexivity | assumption]
             | right; cbn; repeat split; solve [reflexivity | lia | auto] ].
Qed.

Lemma Forall_serial_sizes (l : list Call) :
  Forall (fun c => is_serial c = true) l -> Forall declared_sizes l.
Proof.
  apply Forall_impl. intros c Hc. destruct c; try discriminate Hc; exact I.
Qed.

Lemma Forall_serial_count (f : Call -> bool) (l : list Call) :
  (forall c, is_serial c = true -> f c = false) ->
  Forall (fun c => is_serial c = true) l -> count f l = 0%nat.
Proof.
  intros Hf Hl. apply count_none. revert Hl. apply Forall_impl. exact Hf.
Qed.

Lemma Forall_gattdb_count (f : Call -> bool) (l : list Call) :
  (forall c, is_gattdb c = true -> f c = false) ->
  Forall (fun c => is_gattdb c = true /\ declared_sizes c) l ->
  count f l = 0%nat.
Proof.
  intros Hf Hl. apply count_none. revert Hl. apply Forall_impl.
  intros c [Hc _]. apply Hf, Hc.
Qed.

Lemma loop_effect (P : Platform) (incoming : list MidiMessage) (w : World) :
  step_effect P w (loop P incoming w).
Proof.
  destruct (midiA_read_returns incoming w)
    as (w1 & E & _ & _ & _ & Hinit & added & Ht & Hs).
  rewrite (loop_eq P _ _ _ E).
  assert (Hc1 := Forall_serial_count is_create_set added
                   ltac:(intros c; destruct c; intros H; (discriminate H || reflexivity)) Hs).
  assert (Hc2 := Forall_serial_count is_set_timing added
                   ltac:(intros c; destruct c; intros H; (discriminate H || reflexivity)) Hs).
  apply Forall_serial_sizes in Hs.
  unfold step_effect, after_read, final.
  destruct (note_on_event (mem w1)), (note_off_event (mem w1)) eqn:Hoff;
    cbn [mem trace set_note_on_event set_note_off_event note_off_event];
    rewrite ?Hoff; cbn [mem trace set_note_on_event set_note_off_event init];
    rewrite Ht, <- ?app_assoc;
    (eexists; split; [reflexivity|]; split;
     [ first [ exact Hs
             | apply Forall_app; split; [exact Hs|];
               repeat (apply Forall_cons || apply Forall_nil); cbn; auto ]
     | left; split; [exact Hinit|];
       rewrite ?count_app, Hc1, Hc2; cbn; auto ]).
Qed.


Lemma Forall_gattdb_sizes (l : list Call) :
  Forall (fun c => is_gattdb c = true /\ declared_sizes c) l ->
  Forall declared_sizes l.
Proof. apply Forall_impl. intros c [_ H]. exact H. Qed.

Lemma gattdb_not_create_set (c : Call) :
  is_gattdb c = true -> is_create_set c = false.
Proof. destruct c; intros H; (discriminate H || reflexivity). Qed.

Lemma gattdb_not_set_timing (c : Call) :
  is_gattdb c = true -> is_set_timing c = false.
Proof. destruct c; intros H; (discriminate H || reflexivity). Qed.

(** [declared_sizes] over a log given as a concatenation of parts. *)
Ltac sizes_of_parts :=
  repeat (apply Forall_app; split);
  first [ assumption
        | repeat (apply Forall_cons || apply Forall_nil); exact I ].

Lemma on_event_effect (P : Platform) (evt : sl_bt_msg_t) (w : World) :
  step_effect P w (sl_bt_on_event P evt w).
Proof.
  destruct evt.
  - (* boot *)
    unfold sl_bt_on_event, bind, serial. cbn [mem trace].
    set (w0 := {| mem := mem w;
                  trace := (trace w ++ [Serial_begin 115200]) ++
                           [Serial_println "BLE stack booted"] |}).
    destruct (gatt_db_effect P w0) as (Hi & _ & _ & ga & Hga & Hgs).
    assert (Hg1 := Forall_gattdb_count _ _ gattdb_not_create_set Hgs).
    assert (Hg2 := Forall_gattdb_count _ _ gattdb_not_set_timing Hgs).
    apply Forall_gattdb_sizes in Hgs.
    destruct (ble_initialize_gatt_db P w0) as [[] w1 | w1];
      cbn [final] in Hi, Hga; subst w0; cbn [mem trace] in Hi, Hga.
    + destruct (start_advertising_effect P w1)
        as (_ & aa & Haa & Has & _ & Hcase).
      destruct (ble_start_advertising P w1) as [[] w2 | w2];
        cbn [final halted] in Haa, Hcase; unfold step_effect;
        cbn [final halted mem trace]; rewrite Haa, Hga, <- !app_assoc;
        (eexists; split; [reflexivity|]; split; [sizes_of_parts|]);
        rewrite !count_app, Hg1, Hg2;
        (destruct Hcase as [(H1 & H2 & H3 & H4) | (H1 & H3 & H4 & H5)];
         rewrite H3;
       [ left; rewrite H4;
         split; [congruence | split; reflexivity]
       | right;
         split; [congruence
                | split; [reflexivity | split; [cbn; lia | tauto]]] ]).
    + unfold step_effect. cbn [final halted]. rewrite Hga, <- !app_assoc.
      eexists. split; [reflexivity|]. split; [sizes_of_parts|].
      left. rewrite !count_app, Hg1, Hg2.
      split; [assumption | split; reflexivity].
  - (* connection opened *)
    unfold step_effect. cbn. eexists. split; [reflexivity|].
    split; [sizes_of_parts|]. left.
    split; [reflexivity | split; reflexivity].
  - (* connection closed *)
    unfold sl_bt_on_event, bind, serial. cbn [mem trace].
    set (w0 := {| mem := mem w;
                  trace := trace w ++
                           [Serial_println "BLE connection closed"] |}).
    destruct (start_advertising_effect P w0)
      as (_ & aa & Haa & Has & _ & Hcase).
    destruct (ble_start_advertising P w0) as [[] w2 | w2];
      cbn [final halted] in Haa, Hcase; unfold step_effect;
      cbn [final halted mem trace]; rewrite Haa; subst w0;
      cbn [mem trace] in *; rewrite <- !app_assoc;
      (eexists; split; [reflexivity|]; split; [sizes_of_parts|]);
      rewrite !count_app;
      (destruct Hcase as [(H1 & H2 & H3 & H4) | (H1 & H3 & H4 & H5)];
       rewrite H3;
       [ left; rewrite H4;
         split; [congruence | split; reflexivity]
       | right;
         split; [congruence
                | split; [reflexivity | split; [cbn; lia | tauto]]] ]).
  - exists []. cbn. rewrite app_nil_r.
    split; [reflexivity | split; [constructor | left; auto]].
  - exists []. cbn. rewrite app_nil_r.
    split; [reflexivity | split; [constructor | left; auto]].
Qed.

Lemma handle_effect (P : Platform) (i : Input) (w : World) :
  step_effect P w (handle P i w).
Proof.
  destruct i; [apply on_event_effect | apply loop_effect].
Qed.

Lemma step_running (P : Platform) (m : Machine) (i : Input) :
  stuck m = false ->
  world (step P m i) = final (handle P i (world m))
  /\ stuck (step P m i) = halted (handle P i (world m)).
Proof.
  intros Hs. unfold step. rewrite Hs.
  destruct (handle P i (world m)) as [[] w' | w']; split; reflexivity.
Qed.

Lemma step_stuck (P : Platform) (m : Machine) (i : Input) :
  stuck m = true -> step P m i = m.
Proof. intros Hs. unfold step. rewrite Hs. reflexivity. Qed.

Lemma run_stuck (P : Platform) (inputs : list Input) :
  forall m, stuck m = true -> run P m inputs = m.
Proof.
  induction inputs as [|i rest IH]; intros m Hs; [reflexivity|].
  cbn. rewrite (step_stuck P m i Hs). apply IH, Hs.
Qed.

Lemma run_invariant (P : Platform) (Inv : Machine -> Prop) :
  (forall m i, Inv m -> Inv (step P m i)) ->
  forall inputs m, Inv m -> Inv (run P m inputs).
Proof.
  intros Hstep. induction inputs as [|i rest IH]; intros m Hm; [exact Hm|].
  cbn. apply IH, Hstep, Hm.
Qed.

Lemma step_keeps_sizes (P : Platform) (m : Machine) (i : Input) :
  Forall declared_sizes (trace (world m)) ->
  Forall declared_sizes (trace (world (step P m i))).
Proof.
  intros H. destruct (stuck m) eqn:Hs.
  - rewrite (step_stuck P m i Hs). exact H.
  - destruct (step_running P m i Hs) as [-> _].
    destruct (handle_effect P i (world m)) as (added & -> & Ha & _).
    apply Forall_app. split; assumption.
Qed.

Lemma step_keeps_set_created_once (P : Platform) (m : Machine) (i : Input) :
  set_created_once m -> set_created_once (step P m i).
Proof.
  intros H. destruct (stuck m) eqn:Hs.
  - rewrite (step_stuck P m i Hs). exact H.
  - destruct H as (Hc & Ht & Hfresh).
    destruct (step_running P m i Hs) as [Ew Es].
    unfold set_created_once. rewrite Ew, Es.
    destruct (handle_effect P i (world m))
      as (added & -> & _ & [(Hi & H1 & H2) | (Hi & H1 & H2 & H3)]);
      rewrite !count_app.
    + rewrite H1, H2, Hi, !Nat.add_0_r.
      split; [exact Hc | split; [exact Ht|]].
      intros Hinit _. apply Hfresh; [exact Hinit | exact Hs].
    + destruct (Hfresh Hi Hs) as [-> ->]. rewrite H1.
      split; [cbn; lia | split; [cbn; lia|]].
      intros Hinit Hrun. destruct H3 as [H3 | H3]; congruence.
Qed.

Lemma power_on_set_created_once : set_created_once power_on.
Proof. unfold set_created_once. cbn. repeat split; lia. Qed.


(** Run a routine symbolically on a benign platform: no assertion stops. *)
Ltac through_benign Hb :=
  repeat (cbn -[Z.land];
          match goal with
          | |- context [assert_fatal ?P (sc (stack ?P ?h ?c))] =>
              let E := fresh in
              pose proof (Hb h c) as E;
              destruct (assert_fatal P (sc (stack P h c)));
              [discriminate E | clear E]
          end); cbn -[Z.land].

(** [ble_start_advertising] with [init] down, spelled out. *)
Lemma readvertise (P : Platform) (w : World) :
  init (mem w) = false ->
  let h := advertising_set_handle (mem w) in
  let gen :=
    sl_bt_legacy_advertiser_generate_data
      h sl_bt_advertiser_general_discoverable in
  let start :=
    sl_bt_legacy_advertiser_start h sl_bt_advertiser_connectable_scannable in
  ble_start_advertising P w
  = if assert_fatal P (sc (stack P (trace w) gen)) then
      Halt {| mem := mem w; trace := trace w ++ [gen] |}
    else if assert_fatal P (sc (stack P (trace w ++ [gen]) start)) then
      Halt {| mem := mem w; trace := trace w ++ [gen; start] |}
    else
      Ret tt {| mem := mem w; trace := trace w ++ [gen; start] |}.
Proof.
  intros Hi h gen start. subst h gen start.
  unfold_sketch. cbn. rewrite Hi. through_asserts;
    rewrite <- ?app_assoc; reflexivity.
Qed.

(** [ble_start_advertising] with [init] up, on a benign platform. *)
Lemma first_advertise (P : Platform) (w : World) :
  benign P ->
  init (mem w) = true ->
  let h := store_u8 (advertising_set_handle (mem w))
             (stack P (trace w) sl_bt_advertiser_create_set) in
  ble_start_advertising P w
  = Ret tt
      {| mem := set_init false (set_advertising_set_handle h (mem w));
         trace := trace w ++
           [sl_bt_advertiser_create_set;
            sl_bt_advertiser_set_timing h 160 160 0 0;
            sl_bt_legacy_advertiser_generate_data
              h sl_bt_advertiser_general_discoverable;
            sl_bt_legacy_advertiser_start
              h sl_bt_advertiser_connectable_scannable] |}.
Proof.
  intros Hb Hi h. subst h.
  unfold_sketch. cbn. rewrite Hi. through_benign Hb.
  rewrite <- !app_assoc. reflexivity.
Qed.

Lemma gatt_db_benign (P : Platform) (w : World) :
  benign P -> halted (ble_initialize_gatt_db P w) = false.
Proof.
  intros Hb. unfold_sketch. through_benign Hb. reflexivity.
Qed.

Lemma benign_never_halts (P : Platform) (i : Input) (w : World) :
  benign P -> halted (handle P i w) = false.
Proof.
  intros Hb. destruct i as [evt | incoming].
  - destruct evt; try reflexivity.
    + cbn [handle]. unfold sl_bt_on_event, bind, serial. cbn [mem trace].
      match goal with |- context [ble_initialize_gatt_db P ?w0] =>
        pose proof (gatt_db_benign P w0 Hb) as Hg;
        destruct (ble_initialize_gatt_db P w0) as [[] w1 | w1];
        [clear Hg | discriminate Hg]
      end.
      destruct (init (mem w1)) eqn:Hi.
      * rewrite (first_advertise P w1 Hb Hi). reflexivity.
      * rewrite (readvertise P w1 Hi). cbv zeta. rewrite !Hb. reflexivity.
    + cbn [handle]. unfold sl_bt_on_event, bind, serial. cbn [mem trace].
      match goal with |- context [ble_start_advertising P ?w0] =>
        destruct (init (mem w0)) eqn:Hi;
        [ rewrite (first_advertise P w0 Hb Hi)
        | rewrite (readvertise P w0 Hi); cbv zeta; rewrite !Hb ]
      end; reflexivity.
  - cbn [handle].
    destruct (midiA_read_returns incoming w) as (w1 & E & _).
    rewrite (loop_eq P _ _ _ E). reflexivity.
Qed.

Lemma first_boot (P : Platform) :
  benign P ->
  exists w1 pre,
    sl_bt_on_event P sl_bt_evt_system_boot_id initial_world = Ret tt w1
    /\ init (mem w1) = false
    /\ count is_create_set pre = 0%nat
    /\ count is_set_timing pre = 0%nat
    /\ trace w1
       = pre ++
         [sl_bt_advertiser_create_set;
          sl_bt_advertiser_set_timing
            (advertising_set_handle (mem w1)) 160 160 0 0;
          sl_bt_legacy_advertiser_generate_data
            (advertising_set_handle (mem w1))
            sl_bt_advertiser_general_discoverable;
          sl_bt_legacy_advertiser_start
            (advertising_set_handle (mem w1))
            sl_bt_advertiser_connectable_scannable;
          Serial_println "BLE advertisement started"].
Proof.
  intros Hb. unfold sl_bt_on_event, bind, serial. cbn [mem trace].
  set (w0 := {| mem := mem initial_world;
                trace := (trace initial_world ++ [Serial_begin 115200]) ++
                         [Serial_println "BLE stack booted"] |}).
  pose proof (gatt_db_benign P w0 Hb) as Hg.
  destruct (gatt_db_effect P w0) as (Hi & _ & _ & ga & Hga & Hgs).
  destruct (ble_initialize_gatt_db P w0) as [[] w1 | w1];
    [clear Hg | discriminate Hg].
  cbn [final] in Hi, Hga.
  rewrite (first_advertise P w1 Hb Hi).
  eexists. exists ([Serial_begin 115200; Serial_println "BLE stack booted"]
                   ++ ga).
  split; [reflexivity|]. cbn [mem trace].
  split; [reflexivity|].
  rewrite !count_app.
  rewrite (Forall_gattdb_count _ _ gattdb_not_create_set Hgs).
  rewrite (Forall_gattdb_count _ _ gattdb_not_set_timing Hgs).
  split; [reflexivity|]. split; [reflexivity|].
  rewrite Hga. subst w0. cbn [trace initial_world app].
  rewrite <- !app_assoc. reflexivity.
Qed.

(** ** Disconnection *)

(** C3, as claimed, fails on the handle: after boot, connection 3 opened and
    then closed, [conn_handle] still holds 3, not the initial [0xFF]. *)
Lemma handle_survives_close :
  let m := step friendly connected_friendly
             (StackEvent sl_bt_evt_connection_closed_id) in
  stuck connected_friendly = false
  /\ conn_handle (mem (world connected_friendly)) = 3
  /\ stuck m = false
  /\ conn_handle (mem (world m)) = 3
  /\ conn_handle (mem (world m)) <> 0xFF.
Proof. vm_compute. repeat split; discriminate. Qed.

(** C3, amended: in every state where the advertising set is already
    initialised ([init] down, as after a completed boot) and the stack's
    answers to the two advertising calls pass [app_assert_status], the
    connection-closed event returns having made exactly one
    generate-advertising-data call followed by exactly one start-advertising
    call on the stored set handle, between its two log lines; no variable
    changes, so [conn_handle] keeps the handle of the closed connection. *)
Theorem connection_closed_restarts_advertising (P : Platform) (w : World) :
  init (mem w) = false ->
  let h := advertising_set_handle (mem w) in
  let t0 := trace w ++ [Serial_println "BLE connection closed"] in
  let gen :=
    sl_bt_legacy_advertiser_generate_data
      h sl_bt_advertiser_general_discoverable in
  let start :=
    sl_bt_legacy_advertiser_start h sl_bt_advertiser_connectable_scannable in
  assert_fatal P (sc (stack P t0 gen)) = false ->
  assert_fatal P (sc (stack P (t0 ++ [gen]) start)) = false ->
  exists w',
    sl_bt_on_event P sl_bt_evt_connection_closed_id w = Ret tt w'
    /\ mem w' = mem w
    /\ conn_handle (mem w') = conn_handle (mem w)
    /\ trace w'
       = trace w ++
         [Serial_println "BLE connection closed"; gen; start;
          Serial_println "BLE advertisement restarted"]
    /\ count is_generate_data (trace w')
       = S (count is_generate_data (trace w))
    /\ count is_advertiser_start (trace w')
       = S (count is_advertiser_start (trace w)).
Proof.
  intros Hi h t0 gen start Hg Hs.
  unfold sl_bt_on_event, bind, serial. cbn [mem trace].
  rewrite readvertise by exact Hi. cbn [mem trace]. fold h t0 gen start.
  rewrite Hg, Hs. eexists. split; [reflexivity|]. cbn [mem trace].
  split; [reflexivity|]. split; [reflexivity|].
  subst t0. rewrite <- !app_assoc. split; [reflexivity|].
  rewrite !count_app. cbn. split; lia.
Qed.

Lemma connection_closed_restarts_advertising_witness :
  exists w',
    sl_bt_on_event friendly sl_bt_evt_connection_closed_id
      (world connected_friendly) = Ret tt w'
    /\ conn_handle (mem w') = 3
    /\ count is_generate_data (trace w') = 2%nat
    /\ count is_advertiser_start (trace w') = 2%nat.
Proof.
  destruct (connection_closed_restarts_advertising
              friendly (world connected_friendly) eq_refl eq_refl eq_refl)
    as (w' & E & _ & Hc & _ & Hg & Hs).
  exists w'. split; [exact E|]. split; [exact Hc|]. split; [exact Hg|].
  exact Hs.
Defined.

(** C8, as claimed, fails: with [app_assert_status] stopping on a
    non-success status, a failed generate-advertising-data call after a
    disconnect stops the device; advertising is not restarted and nothing
    that arrives afterwards is handled. *)
Lemma failed_readvertising_halts :
  let m := step flaky connected_flaky
             (StackEvent sl_bt_evt_connection_closed_id) in
  stuck connected_flaky = false
  /\ stuck m = true
  /\ count is_generate_data (trace (world m)) = 2%nat
  /\ count is_advertiser_start (trace (world m)) = 1%nat
  /\ run flaky m
       [StackEvent (sl_bt_evt_connection_opened_id 4);
        LoopPass [NoteOn 1 60 100];
        StackEvent sl_bt_evt_connection_closed_id;
        StackEvent sl_bt_evt_system_boot_id] = m.
Proof. vm_compute. repeat split. Qed.

(** C8, amended: after a disconnect the statuses of the two advertising
    calls go through the same [app_assert_status] as the set-up calls, and
    are not logged by the sketch.  Whenever that check is fatal for the
    status returned, the device stops inside the connection-closed handler
    (after a failed generate call the start call is not made) and handles
    no further input; a set-creation status at first start behaves alike. *)
Theorem readvertising_failure_is_fatal (P : Platform) (m : Machine) :
  stuck m = false ->
  init (mem (world m)) = false ->
  let w := world m in
  let h := advertising_set_handle (mem w) in
  let t0 := trace w ++ [Serial_println "BLE connection closed"] in
  let gen :=
    sl_bt_legacy_advertiser_generate_data
      h sl_bt_advertiser_general_discoverable in
  let start :=
    sl_bt_legacy_advertiser_start h sl_bt_advertiser_connectable_scannable in
  let m' := step P m (StackEvent sl_bt_evt_connection_closed_id) in
  (assert_fatal P (sc (stack P t0 gen)) = true ->
   m' = {| world := {| mem := mem w; trace := t0 ++ [gen] |};
           stuck := true |}
   /\ forall inputs, run P m' inputs = m')
  /\ (assert_fatal P (sc (stack P t0 gen)) = false ->
      assert_fatal P (sc (stack P (t0 ++ [gen]) start)) = true ->
      m' = {| world := {| mem := mem w; trace := t0 ++ [gen; start] |};
              stuck := true |}
      /\ forall inputs, run P m' inputs = m')
  /\ (forall w0,
         init (mem w0) = true ->
         assert_fatal P (sc (stack P (trace w0) sl_bt_advertiser_create_set))
         = true ->
         halted (ble_start_advertising P w0) = true).
Proof.
  intros Hrun Hi w h t0 gen start m'.
  assert (Em' : m' = match sl_bt_on_event P sl_bt_evt_connection_closed_id w
                     with
                     | Ret _ w' => {| world := w'; stuck := false |}
                     | Halt w' => {| world := w'; stuck := true |}
                     end).
  { subst m'. unfold step. rewrite Hrun. reflexivity. }
  unfold sl_bt_on_event, bind, serial in Em'. cbn [mem trace] in Em'.
  rewrite readvertise in Em' by exact Hi. cbn [mem trace] in Em'.
  fold w h t0 gen start in Em'.
  split; [|split].
  - intros Hg. rewrite Hg in Em'. split; [exact Em'|].
    intros inputs. apply run_stuck. rewrite Em'. reflexivity.
  - intros Hg Hs. rewrite Hg, Hs in Em'.
    subst t0. rewrite <- !app_assoc in Em'. rewrite <- !app_assoc.
    split; [exact Em'|].
    intros inputs. apply run_stuck. rewrite Em'. reflexivity.
  - intros w0 Hi0 Hc. unfold_sketch. cbn. rewrite Hi0. cbn.
    rewrite Hc. reflexivity.
Qed.

Lemma readvertising_failure_is_fatal_witness :
  let m' := step flaky connected_flaky
              (StackEvent sl_bt_evt_connection_closed_id) in
  stuck m' = true
  /\ forall inputs, run flaky m' inputs = m'.
Proof.
  destruct (proj1 (readvertising_failure_is_fatal
                     flaky connected_flaky eq_refl eq_refl) eq_refl)
    as [E Hr].
  cbv zeta. split; [|exact Hr].
  rewrite E. reflexivity.
Defined.

(** ** Booting *)

(** C4: from power-on, whatever inputs arrive and whatever the stack
    answers, the advertising set is created at most once and its timing set
    at most once; and when no status trips [app_assert_status], the first
    boot event returns with [init] down, the set created and timed exactly
    once and advertising started on it, and a second boot event creates
    nothing more. *)
Theorem advertising_set_created_at_most_once (P : Platform) :
  (forall inputs,
      let t := trace (world (run P power_on inputs)) in
      (count is_create_set t <= 1)%nat /\ (count is_set_timing t <= 1)%nat)
  /\ (benign P ->
      let m1 := step P power_on (StackEvent sl_bt_evt_system_boot_id) in
      let h := advertising_set_handle (mem (world m1)) in
      stuck m1 = false
      /\ init (mem (world m1)) = false
      /\ count is_create_set (trace (world m1)) = 1%nat
      /\ count is_set_timing (trace (world m1)) = 1%nat
      /\ (exists pre,
             trace (world m1)
             = pre ++
               [sl_bt_advertiser_create_set;
                sl_bt_advertiser_set_timing h 160 160 0 0;
                sl_bt_legacy_advertiser_generate_data
                  h sl_bt_advertiser_general_discoverable;
                sl_bt_legacy_advertiser_start
                  h sl_bt_advertiser_connectable_scannable;
                Serial_println "BLE advertisement started"])
      /\ (let m2 := step P m1 (StackEvent sl_bt_evt_system_boot_id) in
          stuck m2 = false
          /\ count is_create_set (trace (world m2)) = 1%nat
          /\ count is_set_timing (trace (world m2)) = 1%nat)).
Proof.
  split.
  - intros inputs t. subst t.
    destruct (run_invariant P set_created_once
                (step_keeps_set_created_once P) inputs power_on
                power_on_set_created_once) as (Hc & Ht & _).
    split; assumption.
  - intros Hb m1 h.
    destruct (first_boot P Hb) as (w1 & pre & E & Hi & Hp1 & Hp2 & Ht).
    assert (Em1 : m1 = {| world := w1; stuck := false |}).
    { subst m1. unfold step. cbn [stuck power_on handle world]. rewrite E.
      reflexivity. }
    assert (Hc1 : count is_create_set (trace w1) = 1%nat).
    { rewrite Ht, count_app, Hp1. reflexivity. }
    assert (Hc2 : count is_set_timing (trace w1) = 1%nat).
    { rewrite Ht, count_app, Hp2. reflexivity. }
    subst h. rewrite Em1. cbn [world stuck].
    split; [reflexivity|]. split; [exact Hi|]. split; [exact Hc1|].
    split; [exact Hc2|]. split; [exists pre; exact Ht|].
    destruct (step_running P {| world := w1; stuck := false |}
                (StackEvent sl_bt_evt_system_boot_id) eq_refl) as [Ew Es].
    cbv zeta. rewrite Ew, Es. cbn [world].
    split; [apply benign_never_halts, Hb|].
    destruct (handle_effect P (StackEvent sl_bt_evt_system_boot_id) w1)
      as (added & -> & _ & [(_ & H1 & H2) | (Hi' & _)]).
    + rewrite !count_app, H1, H2, Hc1, Hc2. split; reflexivity.
    + congruence.
Qed.

Lemma advertising_set_created_at_most_once_witness :
  benign friendly
  /\ (let m2 := run friendly power_on
                  [StackEvent sl_bt_evt_system_boot_id;
                   StackEvent sl_bt_evt_system_boot_id] in
      stuck m2 = false
      /\ count is_create_set (trace (world m2)) = 1%nat
      /\ count is_set_timing (trace (world m2)) = 1%nat).
Proof.
  assert (Hb : benign friendly) by (intros history c; reflexivity).
  split; [exact Hb|].
  exact (proj2 (proj2 (proj2 (proj2 (proj2
           (proj2 (advertising_set_created_at_most_once friendly) Hb)))))).
Defined.

(** ** Declared sizes *)

Lemma maxlen_app (t u : list Call) :
  midi_characteristic_maxlen (t ++ u)
  = match midi_characteristic_maxlen t with
    | Some n => Some n
    | None => midi_characteristic_maxlen u
    end.
Proof.
  induction t as [|c t IH]; [reflexivity|].
  destruct c; cbn; try exact IH; reflexivity.
Qed.

Lemma declared_maxlen (t : list Call) :
  Forall declared_sizes t ->
  midi_characteristic_maxlen t = None \/ midi_characteristic_maxlen t = Some 1.
Proof.
  induction 1 as [|c t Hc _ IH]; [left; reflexivity|].
  destruct c; cbn; try exact IH.
  cbn in Hc. destruct Hc as (_ & -> & _). right. reflexivity.
Qed.

Lemma gatt_db_creates_characteristic (P : Platform) (w : World) :
  benign P ->
  exists w1 added,
    ble_initialize_gatt_db P w = Ret tt w1
    /\ trace w1 = trace w ++ added
    /\ midi_characteristic_maxlen added = Some 1.
Proof.
  intros Hb. unfold_sketch. through_benign Hb.
  rewrite <- !app_assoc. do 2 eexists.
  split; [reflexivity|]. split; [reflexivity|]. reflexivity.
Qed.

(** C9, as claimed, fails: on a stack that grants everything, the boot
    event declares the MIDI data characteristic with length 1, not 5, while
    the notification sent for a note carries 5 bytes. *)
Lemma characteristic_declared_one_byte :
  let m := run friendly power_on
             [StackEvent sl_bt_evt_system_boot_id;
              StackEvent (sl_bt_evt_connection_opened_id 3);
              LoopPass [NoteOn 1 42 127]] in
  midi_characteristic_maxlen (trace (world m)) = Some 1
  /\ midi_characteristic_maxlen (trace (world m)) <> Some 5
  /\ List.filter is_send_notification (trace (world m))
     = [sl_bt_gatt_server_send_notification
          3 1 5 [0xA7; 0x88; 0x90; 42; 127]].
Proof. vm_compute. repeat split; discriminate. Qed.

(** C9, amended: whatever happens after power-on, every creation of the
    MIDI data characteristic declares a fixed-length value of maximum
    length 1 with a one-byte initial value 0, never 5, while every
    notification is sent with length 5 and five payload bytes; and when no
    status trips [app_assert_status], the first boot event does create the
    characteristic, with length 1. *)
Theorem characteristic_length_is_one (P : Platform) :
  (forall inputs,
      let t := trace (world (run P power_on inputs)) in
      Forall declared_sizes t
      /\ midi_characteristic_maxlen t <> Some 5)
  /\ (benign P ->
      midi_characteristic_maxlen
        (trace (world (step P power_on
                         (StackEvent sl_bt_evt_system_boot_id))))
      = Some 1).
Proof.
  split.
  - intros inputs t. subst t.
    assert (H : Forall declared_sizes (trace (world (run P power_on inputs)))).
    { apply (run_invariant P
               (fun m => Forall declared_sizes (trace (world m)))
               (step_keeps_sizes P)).
      constructor. }
    split; [exact H|].
    destruct (declared_maxlen _ H) as [E | E]; rewrite E; discriminate.
  - intros Hb.
    destruct (step_running P power_on
                (StackEvent sl_bt_evt_system_boot_id) eq_refl) as [-> _].
    cbn [handle world power_on].
    unfold sl_bt_on_event, bind, serial. cbn [mem trace].
    match goal with |- context [ble_initialize_gatt_db P ?w0] =>
      destruct (gatt_db_creates_characteristic P w0 Hb)
        as (w1 & added & -> & Ht & Hm)
    end.
    cbn [mem trace initial_world app] in Ht.
    assert (Hw1 : midi_characteristic_maxlen (trace w1) = Some 1).
    { rewrite Ht.
      change (midi_characteristic_maxlen added = Some 1). exact Hm. }
    destruct (start_advertising_effect P w1) as (_ & aa & Haa & _).
    destruct (ble_start_advertising P w1) as [[] w2 | w2];
      cbn [final] in Haa |- *; cbn [trace];
      rewrite ?maxlen_app, Haa, maxlen_app, Hw1; reflexivity.
Qed.

Lemma characteristic_length_is_one_witness :
  benign friendly
  /\ midi_characteristic_maxlen
       (trace (world (step friendly power_on
                        (StackEvent sl_bt_evt_system_boot_id))))
     = Some 1.
Proof.
  assert (Hb : benign friendly) by (intros history c; reflexivity).
  split; [exact Hb|].
  exact (proj2 (characteristic_length_is_one friendly) Hb).
Defined.

(** * Further properties of the sketch *)

(** ** The two timestamp bytes *)

Lemma high_part_range (ms : Z) : 0 <= Z.shiftr (Z.land ms 0x1fff) 7 < 64.
Proof.
  pose proof (land_1fff_range ms) as Ht.
  rewrite Z.shiftr_div_pow2 by lia. change (2 ^ 7) with 128.
  split; [apply Z.div_pos; lia | apply Z.div_lt_upper_bound; lia].
Qed.

Lemma low_part_range (ms : Z) : 0 <= Z.land (Z.land ms 0x1fff) 0x3f < 64.
Proof.
  change 0x3f with (Z.ones 6). rewrite Z.land_ones by lia.
  change (2 ^ 6) with 64. apply Z.mod_pos_bound. lia.
Qed.

(** A six-bit field under the marker bit: the marker stays, bit 6 stays
    clear. *)
Lemma marked_six_bits (x : Z) :
  0 <= x < 64 ->
  Z.lor 0x80 x = 0x80 + x /\ Z.land (Z.lor 0x80 x) 0x80 = 0x80.
Proof.
  intros Hx.
  assert (Hdisj : Z.land 0x80 x = 0).
  { apply Z.bits_inj'; intros n Hn. rewrite Z.land_spec, Z.bits_0.
    change 0x80 with (2 ^ 7). rewrite Z.pow2_bits_eqb by lia.
    destruct (Z.eqb_spec 7 n) as [<-|Hne]; [|reflexivity].
    cbn [andb]. destruct (Z.eq_dec x 0) as [->|Hx0]; [apply Z.bits_0|].
    apply Z.bits_above_log2; [lia|].
    apply Z.log2_lt_pow2; [lia|]. change (2 ^ 7) with 128. lia. }
  split.
  - rewrite <- Z.lxor_lor by exact Hdisj.
    symmetry. apply Z.add_nocarry_lxor. exact Hdisj.
  - rewrite Z.land_lor_distr_l. rewrite (Z.land_comm x), Hdisj.
    reflexivity.
Qed.

(** X1: in every packet either routine builds, the header byte and the
    timestamp byte both carry the marker bit 0x80 and both have bit 6 clear:
    each lies between 0x80 and 0xBF, whatever the millisecond count. *)
Theorem timestamp_bytes_marked (kind : NoteKind) (ms n v : Z) :
  let p := packet_of kind ms n v in
  Z.land (header p) 0x80 = 0x80
  /\ Z.land (timestamp p) 0x80 = 0x80
  /\ 0x80 <= header p <= 0xBF
  /\ 0x80 <= timestamp p <= 0xBF.
Proof.
  intros p. subst p.
  destruct (marked_six_bits _ (high_part_range ms)) as [Hh1 Hh2].
  destruct (marked_six_bits _ (low_part_range ms)) as [Ht1 Ht2].
  pose proof (high_part_range ms). pose proof (low_part_range ms).
  destruct kind; cbn [packet_of note_on_packet note_off_packet header
                      timestamp];
    rewrite header_eq, timestamp_eq;
    (split; [exact Hh2|]); (split; [exact Ht2|]);
    rewrite Hh1, Ht1; lia.
Qed.

Lemma packet_of_land (kind : NoteKind) (ms ms' n v : Z) :
  Z.land ms 0x1fff = Z.land ms' 0x1fff ->
  packet_of kind ms n v = packet_of kind ms' n v.
Proof.
  intros E. destruct kind; unfold packet_of, note_on_packet, note_off_packet;
    cbv zeta; rewrite E; reflexivity.
Qed.

(** X2: the packet depends on the millisecond count modulo 8192 only:
    adding any multiple of 8192 ms to the count gives the same packet. *)
Theorem timestamp_wraps (kind : NoteKind) (ms k n v : Z) :
  packet_of kind (ms + 8192 * k) n v = packet_of kind ms n v.
Proof.
  apply packet_of_land. change 0x1fff with (Z.ones 13).
  rewrite !Z.land_ones by lia. change (2 ^ 13) with 8192.
  rewrite Z.mul_comm. apply Z_mod_plus_full.
Qed.

Lemma packet_of_masked (kind : NoteKind) (ms n v : Z) :
  packet_of kind ms n v = packet_of kind (Z.land ms 0x1FBF) n v.
Proof.
  assert (Hh : Z.shiftr (Z.land ms 0x1fff) 7
               = Z.shiftr (Z.land (Z.land ms 0x1FBF) 0x1fff) 7).
  { rewrite <- !Z.land_assoc, !Z.shiftr_land. reflexivity. }
  assert (Hl : Z.land (Z.land ms 0x1fff) 0x3f
               = Z.land (Z.land (Z.land ms 0x1FBF) 0x1fff) 0x3f).
  { rewrite <- !Z.land_assoc. reflexivity. }
  destruct kind; unfold packet_of, note_on_packet, note_off_packet;
    cbv zeta; rewrite Hh, Hl; reflexivity.
Qed.

(** X3: two packets have the same five bytes exactly when they are of
    the same kind, with the same note and velocity, and their millisecond
    counts agree under the mask 0x1FBF; so bit 6 of the count (and all bits
    from 13 up) never reaches the client, and nothing else is lost. *)
Theorem same_packet_iff (k k' : NoteKind) (ms ms' n n' v v' : Z) :
  payload (packet_of k ms n v) = payload (packet_of k' ms' n' v')
  <-> k = k' /\ n = n' /\ v = v' /\ Z.land ms 0x1FBF = Z.land ms' 0x1FBF.
Proof.
  split.
  - intros E.
    assert (Hs : status (packet_of k ms n v) = status (packet_of k' ms' n' v')
                 /\ header (packet_of k ms n v)
                    = header (packet_of k' ms' n' v')
                 /\ timestamp (packet_of k ms n v)
                    = timestamp (packet_of k' ms' n' v')
                 /\ n = n' /\ v = v').
    { unfold payload in E. injection E as E1 E2 E3 E4 E5.
      destruct k, k'; cbn in E4, E5 |- *; auto. }
    destruct Hs as (Hst & Hh & Ht & Hn & Hv).
    split; [destruct k, k'; cbn in Hst; congruence|].
    split; [exact Hn|]. split; [exact Hv|].
    rewrite <- (recover_timestamp ms), <- (recover_timestamp ms').
    assert (Hh' : Z.lor 0x80 (Z.shiftr (Z.land ms 0x1fff) 7)
                  = Z.lor 0x80 (Z.shiftr (Z.land ms' 0x1fff) 7)).
    { rewrite <- (header_eq ms), <- (header_eq ms').
      destruct k, k'; exact Hh. }
    assert (Ht' : Z.lor 0x80 (Z.land (Z.land ms 0x1fff) 0x3f)
                  = Z.lor 0x80 (Z.land (Z.land ms' 0x1fff) 0x3f)).
    { rewrite <- (timestamp_eq ms), <- (timestamp_eq ms').
      destruct k, k'; exact Ht. }
    rewrite Hh', Ht'. reflexivity.
  - intros (-> & -> & -> & E).
    rewrite (packet_of_masked k' ms), (packet_of_masked k' ms'), E.
    reflexivity.
Qed.

(** ** What one read keeps, what one pass sends *)

Lemma midiA_read_app (a b : list MidiMessage) (w : World) :
  midiA_read (a ++ b) w = bind (midiA_read a) (fun _ => midiA_read b) w.
Proof.
  revert w. induction a as [|m a IH]; intros w; [reflexivity|].
  destruct m as [c p v | c p v]; cbn [app midiA_read]; unfold bind in *;
    [rewrite handleNoteOn_eq | rewrite handleNoteOff_eq]; apply IH.
Qed.

(** The flags after [midiA.read()]: raised by the messages read, never
    lowered. *)
Lemma midiA_read_flags (incoming : list MidiMessage) :
  forall w w',
    midiA_read incoming w = Ret tt w' ->
    note_on_event (mem w')
    = note_on_event (mem w) || existsb is_note_on incoming
    /\ note_off_event (mem w')
       = note_off_event (mem w) || existsb is_note_off incoming.
Proof.
  induction incoming as [|m rest IH]; intros w w' E.
  - cbn in E. injection E as <-. cbn. rewrite !orb_false_r. auto.
  - destruct m as [c p v | c p v]; cbn [midiA_read] in E; unfold bind in E;
      [rewrite handleNoteOn_eq in E | rewrite handleNoteOff_eq in E];
      destruct (IH _ _ E) as [H1 H2]; rewrite H1, H2; cbn;
      split; try reflexivity;
      rewrite ?orb_true_r; reflexivity.
Qed.

(** X4: however many note messages one [midiA.read()] hands to the
    callbacks, afterwards the shared payload is that of the last message,
    and every event then pending (one per kind whose flag was up before or
    was raised by some message of that kind) carries it. *)
Theorem read_keeps_only_last_note
  (w : World) (earlier : list MidiMessage) (latest : MidiMessage) :
  exists w',
    midiA_read (earlier ++ [latest]) w = Ret tt w'
    /\ (note_to_send (mem w'), note_velocity (mem w')) = pitch_velocity latest
    /\ pending (mem w')
       = (if note_on_event (mem w)
             || existsb is_note_on (earlier ++ [latest])
          then [(On, fst (pitch_velocity latest), snd (pitch_velocity latest))]
          else [])
         ++ (if note_off_event (mem w)
                || existsb is_note_off (earlier ++ [latest])
             then [(Off, fst (pitch_velocity latest),
                    snd (pitch_velocity latest))]
             else []).
Proof.
  destruct (midiA_read_returns earlier w) as (w1 & E1 & _).
  assert (E : exists w', midiA_read (earlier ++ [latest]) w = Ret tt w'
              /\ (note_to_send (mem w'), note_velocity (mem w'))
                 = pitch_velocity latest).
  { rewrite midiA_read_app. unfold bind at 1. rewrite E1.
    destruct latest as [c p v | c p v]; eexists; (split; [reflexivity|]);
      reflexivity. }
  destruct E as (w' & E & Hpv). exists w'. split; [exact E|].
  split; [exact Hpv|].
  destruct (midiA_read_flags _ _ _ E) as [Hon Hoff].
  unfold pending. rewrite Hon, Hoff.
  rewrite <- Hpv. reflexivity.
Qed.

Lemma pending_length (g : Globals) : (List.length (pending g) <= 2)%nat.
Proof.
  unfold pending. destruct (note_on_event g), (note_off_event g); cbn; lia.
Qed.

(** X5: every pass of [loop] returns, leaves nothing pending, and sends
    one notification per event pending after [midiA.read()], hence at most
    two, however many messages were read; the payload variables stay as
    the read left them. *)
Theorem loop_drains_pending
  (P : Platform) (incoming : list MidiMessage) (w : World) :
  exists w1 w',
    midiA_read incoming w = Ret tt w1
    /\ loop P incoming w = Ret tt w'
    /\ pending (mem w') = []
    /\ count is_send_notification (trace w')
       = (count is_send_notification (trace w)
          + List.length (pending (mem w1)))%nat
    /\ (count is_send_notification (trace w')
        <= count is_send_notification (trace w) + 2)%nat
    /\ note_to_send (mem w') = note_to_send (mem w1)
    /\ note_velocity (mem w') = note_velocity (mem w1).
Proof.
  destruct (midiA_read_returns incoming w)
    as (w1 & E & _ & _ & _ & _ & added & Ht & Hs).
  exists w1, (after_read P w1). split; [exact E|].
  split; [apply loop_eq, E|].
  assert (Hc : count is_send_notification added = 0%nat).
  { apply (Forall_serial_count is_send_notification added); [|exact Hs].
    intros c; destruct c; intros H; (discriminate H || reflexivity). }
  pose proof (pending_length (mem w1)) as Hlen.
  assert (Hcount : count is_send_notification (trace (after_read P w1))
                   = (count is_send_notification (trace w)
                      + List.length (pending (mem w1)))%nat).
  { unfold after_read, pending.
    destruct (note_on_event (mem w1)) eqn:Hon,
             (note_off_event (mem w1)) eqn:Hoff;
      cbn [mem trace set_note_on_event note_off_event]; rewrite ?Hoff;
      cbn [mem trace]; rewrite ?count_app, Ht, count_app, Hc; cbn; lia. }
  split.
  { unfold after_read, pending.
    destruct (note_on_event (mem w1)) eqn:Hon,
             (note_off_event (mem w1)) eqn:Hoff;
      cbn [mem trace set_note_on_event note_off_event note_on_event];
      rewrite ?Hoff, ?Hon; cbn; rewrite ?Hon, ?Hoff; reflexivity. }
  split; [exact Hcount|]. split; [lia|].
  unfold after_read.
  destruct (note_on_event (mem w1)) eqn:Hon,
           (note_off_event (mem w1)) eqn:Hoff;
    cbn [mem trace set_note_on_event note_off_event]; rewrite ?Hoff;
    cbn; split; reflexivity.
Qed.

(** ** What the event handlers leave alone *)

Lemma gatt_db_frame (P : Platform) (w : World) :
  let o := ble_initialize_gatt_db P w in
  note_to_send (mem (final o)) = note_to_send (mem w)
  /\ note_velocity (mem (final o)) = note_velocity (mem w)
  /\ note_on_event (mem (final o)) = note_on_event (mem w)
  /\ note_off_event (mem (final o)) = note_off_event (mem w).
Proof.
  unfold_sketch. through_asserts; repeat split.
Qed.

Lemma start_advertising_frame (P : Platform) (w : World) :
  let o := ble_start_advertising P w in
  note_to_send (mem (final o)) = note_to_send (mem w)
  /\ note_velocity (mem (final o)) = note_velocity (mem w)
  /\ note_on_event (mem (final o)) = note_on_event (mem w)
  /\ note_off_event (mem (final o)) = note_off_event (mem w).
Proof.
  unfold_sketch. cbn -[Z.land]. destruct (init (mem w));
    through_asserts; repeat split.
Qed.

Lemma readvertise_frame (P : Platform) (w : World) :
  init (mem w) = false ->
  let o := ble_start_advertising P w in
  mem (final o) = mem w
  /\ exists added,
       trace (final o) = trace w ++ added
       /\ Forall (advertises_on (advertising_set_handle (mem w))) added.
Proof.
  intros Hi. cbv zeta. rewrite (readvertise P w Hi). cbv zeta.
  repeat match goal with
         | |- context [assert_fatal ?P ?s] => destruct (assert_fatal P s)
         end;
    (split; [reflexivity|]); eexists; (split; [reflexivity|]);
    repeat (apply Forall_cons || apply Forall_nil); reflexivity.
Qed.

Record event_frame (P : Platform) (evt : sl_bt_msg_t) (w : World)
  (o : Outcome unit) : Prop := {
  ef_note : note_to_send (mem (final o)) = note_to_send (mem w);
  ef_velocity : note_velocity (mem (final o)) = note_velocity (mem w);
  ef_on : note_on_event (mem (final o)) = note_on_event (mem w);
  ef_off : note_off_event (mem (final o)) = note_off_event (mem w);
  ef_conn : halted o = false ->
            conn_handle (mem (final o))
            = handle_after (StackEvent evt) (conn_handle (mem w));
  ef_conn_kept : is_connection_opened (StackEvent evt) = false ->
                 conn_handle (mem (final o)) = conn_handle (mem w);
  ef_calls : exists added,
      trace (final o) = trace w ++ added
      /\ Forall (fun c => is_send_notification c = false) added
      /\ (init (mem w) = false ->
          Forall (advertises_on (advertising_set_handle (mem w))) added);
  ef_init : init (mem w) = false ->
            init (mem (final o)) = false
            /\ advertising_set_handle (mem (final o))
               = advertising_set_handle (mem w)
}.

Lemma gattdb_not_send (c : Call) :
  is_gattdb c = true -> is_send_notification c = false.
Proof. destruct c; intros H; (discriminate H || reflexivity). Qed.

Lemma gattdb_advertises_on (h : Z) (c : Call) :
  is_gattdb c = true -> advertises_on h c.
Proof. destruct c; intros H; (discriminate H || exact I). Qed.

Lemma Forall_gattdb (Q : Call -> Prop) (l : list Call) :
  (forall c, is_gattdb c = true -> Q c) ->
  Forall (fun c => is_gattdb c = true /\ declared_sizes c) l -> Forall Q l.
Proof.
  intros HQ. apply Forall_impl. intros c [Hc _]. apply HQ, Hc.
Qed.

(** A predicate over a log given as a concatenation of parts. *)
Ltac parts_of Hga Haa :=
  repeat (apply Forall_app; split);
  first [ exact Hga | exact Haa
        | repeat (apply Forall_cons || apply Forall_nil);
          first [reflexivity | exact I] ].

Lemma on_event_frame (P : Platform) (evt : sl_bt_msg_t) (w : World) :
  event_frame P evt w (sl_bt_on_event P evt w).
Proof.
  destruct evt.
  - (* boot *)
    unfold sl_bt_on_event, bind, serial. cbn [mem trace].
    set (w0 := {| mem := mem w;
                  trace := (trace w ++ [Serial_begin 115200]) ++
                           [Serial_println "BLE stack booted"] |}).
    destruct (gatt_db_effect P w0) as (Hi & Hc & Hh & ga & Hga & Hgs).
    destruct (gatt_db_frame P w0) as (G1 & G2 & G3 & G4).
    assert (Hgn := Forall_gattdb _ _ gattdb_not_send Hgs).
    assert (Hgv := Forall_gattdb _ _
                     (gattdb_advertises_on (advertising_set_handle (mem w)))
                     Hgs).
    destruct (ble_initialize_gatt_db P w0) as [[] w1 | w1];
      cbn [final] in *; subst w0; cbn [mem trace] in *.
    + destruct (start_advertising_effect P w1)
        as (Hc1 & aa & Haa & _ & Han & _).
      destruct (start_advertising_frame P w1) as (A1 & A2 & A3 & A4).
      pose proof (readvertise_frame P w1) as Hre. cbv zeta in Hre.
      destruct (ble_start_advertising P w1) as [[] w2 | w2];
        cbn [final halted mem trace] in *;
        (constructor; cbn [final halted mem trace handle_after];
         [ congruence | congruence | congruence | congruence
         | intros _; congruence | intros _; congruence
         | rewrite Haa, Hga, <- !app_assoc; eexists;
           split; [reflexivity|]; split; [parts_of Hgn Han|];
           intros Hi0; rewrite <- Hi in Hi0;
           destruct (Hre Hi0) as (_ & aa' & Haa' & Hav);
           rewrite Haa in Haa'; apply app_inv_head in Haa'; subst aa';
           rewrite Hh in Hav; parts_of Hgv Hav
         | intros Hi0; rewrite <- Hi in Hi0;
           destruct (Hre Hi0) as (Hm & _); rewrite Hm;
           split; congruence ]).
    + constructor; cbn [final halted mem trace handle_after];
        [ congruence | congruence | congruence | congruence
        | intros H; discriminate H | intros _; congruence
        | rewrite Hga, <- !app_assoc; eexists;
          split; [reflexivity|]; split; [parts_of Hgn Hgn|];
          intros _; parts_of Hgv Hgv
        | intros Hi0; split; congruence ].
  - (* connection opened *)
    constructor; cbn; try reflexivity; try (intros H; discriminate H).
    + eexists. split; [reflexivity|]. split; [|intros _];
        repeat (apply Forall_cons || apply Forall_nil);
        first [reflexivity | exact I].
    + intros Hi. split; [exact Hi | reflexivity].
  - (* connection closed *)
    unfold sl_bt_on_event, bind, serial. cbn [mem trace].
    set (w0 := {| mem := mem w;
                  trace := trace w ++
                           [Serial_println "BLE connection closed"] |}).
    destruct (start_advertising_effect P w0)
      as (Hc1 & aa & Haa & _ & Han & _).
    destruct (start_advertising_frame P w0) as (A1 & A2 & A3 & A4).
    pose proof (readvertise_frame P w0) as Hre. cbv zeta in Hre.
    destruct (ble_start_advertising P w0) as [[] w2 | w2];
      cbn [final halted mem trace] in *; subst w0; cbn [mem trace] in *;
      (constructor; cbn [final halted mem trace handle_after];
       [ congruence | congruence | congruence | congruence
       | intros _; congruence | intros _; congruence
       | rewrite Haa, <- !app_assoc; eexists;
         split; [reflexivity|]; split; [parts_of Han Han|];
         intros Hi0;
         destruct (Hre Hi0) as (_ & aa' & Haa' & Hav);
         rewrite Haa in Haa'; apply app_inv_head in Haa'; subst aa';
         parts_of Hav Hav
       | intros Hi0; destruct (Hre Hi0) as (Hm & _); rewrite Hm;
         split; [exact Hi0 | reflexivity] ]).
  - constructor; cbn; try reflexivity; try (intros; reflexivity).
    + exists []. rewrite app_nil_r. repeat split; constructor.
    + intros Hi. split; [exact Hi | reflexivity].
  - constructor; cbn; try reflexivity; try (intros; reflexivity).
    + exists []. rewrite app_nil_r. repeat split; constructor.
    + intros Hi. split; [exact Hi | reflexivity].
Qed.

(** ** What a loop pass leaves alone *)

Lemma loop_frame (P : Platform) (incoming : list MidiMessage) (w : World) :
  exists w1 w',
    midiA_read incoming w = Ret tt w1
    /\ loop P incoming w = Ret tt w'
    /\ conn_handle (mem w') = conn_handle (mem w)
    /\ init (mem w') = init (mem w)
    /\ advertising_set_handle (mem w') = advertising_set_handle (mem w)
    /\ note_to_send (mem w') = note_to_send (mem w1)
    /\ note_velocity (mem w') = note_velocity (mem w1)
    /\ exists added,
         trace w' = trace w ++ added
         /\ Forall (fun c =>
                      is_serial c = true
                      \/ is_note_notification
                           (conn_handle (mem w))
                           (midi_report_characteristic_handle (mem w))
                           (note_to_send (mem w1)) (note_velocity (mem w1))
                           c) added.
Proof.
  destruct (midiA_read_returns incoming w)
    as (w1 & E & Hc & Hr & Hh & Hi & added & Ht & Hs).
  exists w1, (after_read P w1). split; [exact E|].
  split; [apply loop_eq, E|].
  assert (Hs' : Forall (fun c =>
                      is_serial c = true
                      \/ is_note_notification
                           (conn_handle (mem w1))
                           (midi_report_characteristic_handle (mem w1))
                           (note_to_send (mem w1)) (note_velocity (mem w1))
                           c) added).
  { revert Hs. apply Forall_impl. intros c Hc'. left. exact Hc'. }
  rewrite <- Hc, <- Hr, <- Hh, <- Hi.
  unfold after_read.
  destruct (note_on_event (mem w1)) eqn:Hon,
           (note_off_event (mem w1)) eqn:Hoff;
    cbn [mem trace set_note_on_event note_off_event]; rewrite ?Hoff;
    cbn [mem trace set_note_on_event set_note_off_event conn_handle init
         advertising_set_handle note_to_send note_velocity];
    repeat (split; [reflexivity|]);
    rewrite Ht, <- ?app_assoc; eexists; (split; [reflexivity|]);
    repeat (apply Forall_app; split); try exact Hs';
    repeat (apply Forall_cons || apply Forall_nil);
    right; unfold notification; cbn [mem trace set_note_on_event
      set_note_off_event conn_handle midi_report_characteristic_handle];
    eexists _, _; reflexivity.
Qed.

(** ** Invariants of the running device *)

Lemma note_notification_sent_on (conn chr n v : Z) (c : Call) :
  is_serial c = true \/ is_note_notification conn chr n v c -> sent_on conn c.
Proof.
  intros [H | (kind & ms & ->)]; [|reflexivity].
  destruct c; try discriminate H; exact I.
Qed.

Lemma note_notification_advertises_on (h conn chr n v : Z) (c : Call) :
  is_serial c = true \/ is_note_notification conn chr n v c ->
  advertises_on h c.
Proof.
  intros [H | (kind & ms & ->)]; [|exact I].
  destruct c; try discriminate H; exact I.
Qed.

Lemma note_notification_well_formed (conn chr n v : Z) (c : Call) :
  is_byte n -> is_byte v ->
  is_serial c = true \/ is_note_notification conn chr n v c ->
  well_formed_notification c.
Proof.
  intros Hn Hv [H | (kind & ms & ->)].
  - destruct c; try discriminate H; exact I.
  - cbn. split; [reflexivity|].
    destruct (marked_six_bits _ (high_part_range ms)) as [Hh _].
    destruct (marked_six_bits _ (low_part_range ms)) as [Ht _].
    pose proof (high_part_range ms). pose proof (low_part_range ms).
    rewrite payload_spec_encode. unfold spec_encode.
    do 5 eexists. split; [reflexivity|].
    change 0x1FFF with 0x1fff. change 0x3F with 0x3f.
    rewrite Hh, Ht.
    split; [lia|]. split; [lia|].
    split; [destruct kind; auto|]. split; assumption.
Qed.

Lemma not_send_sent_on (conn : Z) (c : Call) :
  is_send_notification c = false -> sent_on conn c.
Proof. destruct c; intros H; (discriminate H || exact I). Qed.

Lemma not_send_well_formed (c : Call) :
  is_send_notification c = false -> well_formed_notification c.
Proof. destruct c; intros H; (discriminate H || exact I). Qed.

Lemma midiA_read_bytes (incoming : list MidiMessage) :
  Forall byte_message incoming ->
  forall w w',
    midiA_read incoming w = Ret tt w' ->
    is_byte (note_to_send (mem w)) -> is_byte (note_velocity (mem w)) ->
    is_byte (note_to_send (mem w')) /\ is_byte (note_velocity (mem w')).
Proof.
  induction 1 as [|m rest [Hp Hv] _ IH]; intros w w' E Hn Hvel.
  - cbn in E. injection E as <-. split; assumption.
  - destruct m as [c p v | c p v]; cbn [midiA_read] in E; unfold bind in E;
      [rewrite handleNoteOn_eq in E | rewrite handleNoteOff_eq in E];
      apply (IH _ _ E); cbn; assumption.
Qed.

Lemma run_cons (P : Platform) (m : Machine) (i : Input) (rest : list Input) :
  run P m (i :: rest) = run P (step P m i) rest.
Proof. reflexivity. Qed.

Lemma run_app (P : Platform) (m : Machine) (a b : list Input) :
  run P m (a ++ b) = run P (run P m a) b.
Proof. apply fold_left_app. Qed.

(** X13: no Bluetooth event, whether its handler returns or is stopped by
    an assertion, touches the captured note or its flags, or sends a
    notification: what is pending before is pending after. *)
Theorem events_leave_capture_alone
  (P : Platform) (evt : sl_bt_msg_t) (w : World) :
  let o := sl_bt_on_event P evt w in
  pending (mem (final o)) = pending (mem w)
  /\ note_to_send (mem (final o)) = note_to_send (mem w)
  /\ note_velocity (mem (final o)) = note_velocity (mem w)
  /\ List.filter is_send_notification (trace (final o))
     = List.filter is_send_notification (trace w).
Proof.
  destruct (on_event_frame P evt w)
    as [H1 H2 H3 H4 _ _ (added & Ht & Hns & _) _].
  cbv zeta. unfold pending. rewrite H1, H2, H3, H4, Ht, filter_app.
  repeat split.
  assert (E : List.filter is_send_notification added = []).
  { clear Ht. induction Hns as [|c l Hc _ IH]; [reflexivity|].
    cbn. rewrite Hc. exact IH. }
  rewrite E. apply app_nil_r.
Qed.

(** X6: when every note message read carries byte-sized pitch and
    velocity, every notification the device ever sends, after any inputs on
    any platform, has length 5 and five payload bytes: a header and a
    timestamp byte in 0x80..0xBF, status 0x90 or 0x80, and a byte each for
    note and velocity. *)
Theorem notifications_well_formed (P : Platform) (inputs : list Input) :
  Forall byte_input inputs ->
  Forall well_formed_notification (trace (world (run P power_on inputs))).
Proof.
  intros Hin.
  assert (G : forall m,
             is_byte (note_to_send (mem (world m))) ->
             is_byte (note_velocity (mem (world m))) ->
             Forall well_formed_notification (trace (world m)) ->
             Forall well_formed_notification (trace (world (run P m inputs)))).
  { induction Hin as [|i rest Hi _ IH]; intros m Hn Hv Ht; [exact Ht|].
    rewrite run_cons. destruct (stuck m) eqn:Hs.
    - rewrite (step_stuck P m i Hs). apply IH; assumption.
    - destruct (step_running P m i Hs) as [Ew _].
      destruct i as [evt | incoming]; cbn [handle] in Ew.
      + destruct (on_event_frame P evt (world m))
          as [H1 H2 _ _ _ _ (added & Hta & Hns & _) _].
        apply IH; rewrite Ew; [congruence | congruence |].
        rewrite Hta. apply Forall_app. split; [exact Ht|].
        revert Hns. apply Forall_impl. exact not_send_well_formed.
      + destruct (loop_frame P incoming (world m))
          as (w1 & w' & E1 & E & _ & _ & _ & Hn' & Hv' & added & Hta & Ha).
        rewrite E in Ew. cbn [final] in Ew.
        destruct (midiA_read_bytes incoming Hi _ _ E1 Hn Hv) as [Bn Bv].
        apply IH; rewrite Ew; [congruence | congruence |].
        rewrite Hta. apply Forall_app. split; [exact Ht|].
        revert Ha. apply Forall_impl. intros c.
        apply note_notification_well_formed; assumption. }
  apply G; cbn; [unfold is_byte; lia | unfold is_byte; lia | constructor].
Qed.

(** X7: as long as no connection-opened event arrives, [conn_handle]
    stays 0xFF and every notification the device sends names connection
    0xFF, whatever else happens. *)
Theorem no_connection_all_on_sentinel (P : Platform) (inputs : list Input) :
  existsb is_connection_opened inputs = false ->
  let m := run P power_on inputs in
  conn_handle (mem (world m)) = 0xFF
  /\ Forall (sent_on 0xFF) (trace (world m)).
Proof.
  intros Hno.
  assert (G : forall m,
             conn_handle (mem (world m)) = 0xFF ->
             Forall (sent_on 0xFF) (trace (world m)) ->
             conn_handle (mem (world (run P m inputs))) = 0xFF
             /\ Forall (sent_on 0xFF) (trace (world (run P m inputs)))).
  { induction inputs as [|i rest IH]; intros m Hc Ht; [split; assumption|].
    cbn [existsb] in Hno. apply orb_false_iff in Hno as [Hi Hrest].
    rewrite run_cons. destruct (stuck m) eqn:Hs.
    - rewrite (step_stuck P m i Hs). apply IH; assumption.
    - destruct (step_running P m i Hs) as [Ew _].
      destruct i as [evt | incoming]; cbn [handle] in Ew.
      + destruct (on_event_frame P evt (world m))
          as [_ _ _ _ _ Hk (added & Hta & Hns & _) _].
        apply IH; [exact Hrest | rewrite Ew, (Hk Hi); exact Hc |].
        rewrite Ew, Hta. apply Forall_app. split; [exact Ht|].
        revert Hns. apply Forall_impl. exact (not_send_sent_on 0xFF).
      + destruct (loop_frame P incoming (world m))
          as (w1 & w' & _ & E & Hc' & _ & _ & _ & _ & added & Hta & Ha).
        rewrite E in Ew. cbn [final] in Ew.
        apply IH; [exact Hrest | rewrite Ew, Hc'; exact Hc |].
        rewrite Ew, Hta. apply Forall_app. split; [exact Ht|].
        revert Ha. apply Forall_impl. intros c Hcall.
        rewrite <- Hc. exact (note_notification_sent_on _ _ _ _ _ Hcall). }
  apply G; [reflexivity | constructor].
Qed.

(** X8: while the device has not been stopped by an assertion,
    [conn_handle] is the (8-bit) handle of the latest connection-opened
    event, or 0xFF before the first; connection-closed events, boots and
    loop passes never change it. *)
Theorem conn_handle_tracks_latest_opened
  (P : Platform) (inputs : list Input) :
  stuck (run P power_on inputs) = false ->
  conn_handle (mem (world (run P power_on inputs))) = latest_opened inputs.
Proof.
  unfold latest_opened.
  change 0xFF with (conn_handle (mem (world power_on))).
  generalize power_on.
  induction inputs as [|i rest IH]; intros m Hrun; [reflexivity|].
  rewrite run_cons in Hrun |- *. cbn [fold_left].
  assert (Hs1 : stuck (step P m i) = false).
  { destruct (stuck (step P m i)) eqn:Hs1; [|reflexivity].
    rewrite (run_stuck P rest _ Hs1) in Hrun. congruence. }
  assert (Hs : stuck m = false).
  { destruct (stuck m) eqn:Hs; [|reflexivity].
    rewrite (step_stuck P m i Hs) in Hs1. congruence. }
  rewrite (IH _ Hrun). f_equal.
  destruct (step_running P m i Hs) as [Ew Eh]. rewrite Hs1 in Eh.
  rewrite Ew. destruct i as [evt | incoming]; cbn [handle] in *.
  - destruct (on_event_frame P evt (world m)) as [_ _ _ _ Hc _ _ _].
    apply Hc. symmetry. exact Eh.
  - destruct (loop_frame P incoming (world m))
      as (w1 & w' & _ & E & Hc' & _).
    rewrite E. exact Hc'.
Qed.

(** X9: once [init] is down it stays down, and the advertising set handle
    never changes again: whatever inputs follow, no set is created or
    timed, and every generate-data or start call is made on that handle. *)
Theorem advertising_handle_write_once
  (P : Platform) (m : Machine) (inputs : list Input) :
  init (mem (world m)) = false ->
  let h := advertising_set_handle (mem (world m)) in
  let m' := run P m inputs in
  init (mem (world m')) = false
  /\ advertising_set_handle (mem (world m')) = h
  /\ exists added,
       trace (world m') = trace (world m) ++ added
       /\ Forall (advertises_on h) added.
Proof.
  revert m. induction inputs as [|i rest IH]; intros m Hi h m'.
  - subst m'. cbn. split; [exact Hi|]. split; [reflexivity|].
    exists []. rewrite app_nil_r. split; constructor.
  - subst m'. rewrite run_cons.
    assert (Hstep : init (mem (world (step P m i))) = false
                    /\ advertising_set_handle (mem (world (step P m i))) = h
                    /\ exists added,
                         trace (world (step P m i)) = trace (world m) ++ added
                         /\ Forall (advertises_on h) added).
    { destruct (stuck m) eqn:Hs.
      - rewrite (step_stuck P m i Hs). split; [exact Hi|].
        split; [reflexivity|]. exists []. rewrite app_nil_r.
        split; constructor.
      - destruct (step_running P m i Hs) as [Ew _]. rewrite Ew.
        destruct i as [evt | incoming]; cbn [handle].
        + destruct (on_event_frame P evt (world m))
            as [_ _ _ _ _ _ (added & Hta & _ & Hadv) Hinit].
          destruct (Hinit Hi) as [Hi' Hh'].
          split; [exact Hi'|]. split; [exact Hh'|].
          exists added. split; [exact Hta | exact (Hadv Hi)].
        + destruct (loop_frame P incoming (world m))
            as (w1 & w' & _ & E & _ & Hi' & Hh' & _ & _ & added & Hta & Ha).
          rewrite E. cbn [final].
          split; [congruence|]. split; [exact Hh'|].
          exists added. split; [exact Hta|].
          revert Ha. apply Forall_impl. intros c.
          apply note_notification_advertises_on. }
    destruct Hstep as (Hi1 & Hh1 & a1 & Ht1 & Ha1).
    destruct (IH (step P m i) Hi1) as (Hi2 & Hh2 & a2 & Ht2 & Ha2).
    split; [exact Hi2|]. split; [rewrite Hh2; exact Hh1|].
    exists (a1 ++ a2). rewrite Ht2, Ht1, app_assoc. split; [reflexivity|].
    apply Forall_app. split; [exact Ha1|].
    rewrite Hh1 in Ha2. exact Ha2.
Qed.

(** ** Failures during set-up *)

(** Run a routine symbolically when every checked status is granted. *)
Ltac through_granted Hg :=
  repeat (cbn -[Z.land];
          match goal with
          | |- context [assert_fatal ?P (sc (stack ?P ?h ?c))] =>
              let E := fresh in
              pose proof (Hg h c eq_refl) as E;
              destruct (assert_fatal P (sc (stack P h c)));
              [discriminate E | clear E]
          end); cbn -[Z.land].

Lemma gatt_db_granted (P : Platform) (w : World) :
  grants_all_but_characteristic P ->
  halted (ble_initialize_gatt_db P w) = false.
Proof.
  intros Hg. unfold_sketch. through_granted Hg. reflexivity.
Qed.

Lemma start_advertising_granted (P : Platform) (w : World) :
  grants_all_but_characteristic P ->
  exists w' pre,
    ble_start_advertising P w = Ret tt w'
    /\ trace w'
       = trace w ++ pre ++
         [sl_bt_legacy_advertiser_generate_data
            (advertising_set_handle (mem w'))
            sl_bt_advertiser_general_discoverable;
          sl_bt_legacy_advertiser_start
            (advertising_set_handle (mem w'))
            sl_bt_advertiser_connectable_scannable].
Proof.
  intros Hg. unfold_sketch. cbn -[Z.land].
  destruct (init (mem w)); through_granted Hg; rewrite <- ?app_assoc.
  - eexists. eexists [_; _]. split; reflexivity.
  - eexists. exists []. split; reflexivity.
Qed.

(** X11: the status of the MIDI data characteristic creation is never
    checked: if every other status passes [app_assert_status], the boot
    event completes and starts advertising, whatever the stack answered to
    that creation. *)
Theorem characteristic_failure_ignored (P : Platform) (w : World) :
  grants_all_but_characteristic P ->
  exists w' pre,
    sl_bt_on_event P sl_bt_evt_system_boot_id w = Ret tt w'
    /\ trace w'
       = trace w ++ pre ++
         [sl_bt_legacy_advertiser_generate_data
            (advertising_set_handle (mem w'))
            sl_bt_advertiser_general_discoverable;
          sl_bt_legacy_advertiser_start
            (advertising_set_handle (mem w'))
            sl_bt_advertiser_connectable_scannable;
          Serial_println "BLE advertisement started"].
Proof.
  intros Hg. unfold sl_bt_on_event, bind, serial. cbn [mem trace].
  set (w0 := {| mem := mem w;
                trace := (trace w ++ [Serial_begin 115200]) ++
                         [Serial_println "BLE stack booted"] |}).
  pose proof (gatt_db_granted P w0 Hg) as Hh.
  destruct (gatt_db_effect P w0) as (_ & _ & _ & ga & Hga & _).
  destruct (ble_initialize_gatt_db P w0) as [[] w1 | w1];
    [clear Hh | discriminate Hh].
  cbn [final] in Hga. subst w0. cbn [trace] in Hga.
  destruct (start_advertising_granted P w1 Hg) as (w2 & pre & -> & Ht).
  eexists. exists ([Serial_begin 115200; Serial_println "BLE stack booted"]
                   ++ ga ++ pre).
  split; [reflexivity|]. cbn [mem trace].
  rewrite Ht, Hga, <- !app_assoc. reflexivity.
Qed.

Lemma characteristic_failure_ignored_witness :
  grants_all_but_characteristic stubborn
  /\ assert_fatal stubborn
       (sc (stack stubborn []
              (sl_bt_gattdb_add_uuid128_characteristic
                 1 1 [] 0 0 [] sl_bt_gattdb_fixed_length_value 1 1 [0])))
     = true
  /\ exists w',
       sl_bt_on_event stubborn sl_bt_evt_system_boot_id initial_world
       = Ret tt w'
       /\ midi_report_characteristic_handle (mem w') = 0
       /\ count is_advertiser_start (trace w') = 1%nat.
Proof.
  assert (Hg : grants_all_but_characteristic stubborn).
  { intros history c Hc. cbn. rewrite Hc. reflexivity. }
  split; [exact Hg|]. split; [reflexivity|].
  destruct (characteristic_failure_ignored stubborn initial_world Hg)
    as (w' & pre & E & _).
  exists w'. split; [exact E|].
  vm_compute in E. injection E as <-. split; reflexivity.
Defined.

Lemma gattdb_not_advertiser (c : Call) :
  is_gattdb c = true -> is_advertiser c = false.
Proof. destruct c; intros H; (discriminate H || reflexivity). Qed.

(** X12: if an assertion stops [ble_initialize_gatt_db] during a boot
    event, the device stops without having made any advertiser call in
    that event, and makes none ever after. *)
Theorem fatal_gatt_setup_never_advertises (P : Platform) (m : Machine) :
  stuck m = false ->
  halted (ble_initialize_gatt_db P
            {| mem := mem (world m);
               trace := trace (world m) ++
                        [Serial_begin 115200;
                         Serial_println "BLE stack booted"] |}) = true ->
  let m' := step P m boot_event in
  stuck m' = true
  /\ count is_advertiser (trace (world m'))
     = count is_advertiser (trace (world m))
  /\ forall inputs, run P m' inputs = m'.
Proof.
  intros Hs Hh m'.
  assert (Hm' : stuck m' = true
                /\ count is_advertiser (trace (world m'))
                   = count is_advertiser (trace (world m))).
  { subst m'. unfold step. rewrite Hs. cbn [boot_event handle].
    unfold sl_bt_on_event, bind, serial. cbn [mem trace].
    rewrite <- app_assoc. cbn [app].
    match type of Hh with halted (ble_initialize_gatt_db P ?w0) = true =>
      destruct (gatt_db_effect P w0) as (_ & _ & _ & ga & Hga & Hgs);
      destruct (ble_initialize_gatt_db P w0) as [[] w1 | w1];
      [discriminate Hh|]
    end.
    cbn [final trace] in Hga. cbn [world stuck]. split; [reflexivity|].
    rewrite Hga, !count_app.
    rewrite (Forall_gattdb_count _ _ gattdb_not_advertiser Hgs).
    cbn. lia. }
  destruct Hm' as [Hst Hc]. split; [exact Hst|]. split; [exact Hc|].
  intros inputs. apply run_stuck, Hst.
Qed.

Lemma fatal_gatt_setup_never_advertises_witness :
  let m' := step broken power_on boot_event in
  stuck m' = true
  /\ count is_advertiser (trace (world m')) = 0%nat
  /\ forall inputs, run broken m' inputs = m'.
Proof.
  exact (fatal_gatt_setup_never_advertises broken power_on eq_refl eq_refl).
Defined.

(** ** Repeated boots *)

Lemma gatt_db_sessions (P : Platform) (w : World) :
  benign P ->
  exists w1 added,
    ble_initialize_gatt_db P w = Ret tt w1
    /\ trace w1 = trace w ++ added
    /\ count is_new_session added = 1%nat
    /\ count is_commit added = 1%nat.
Proof.
  intros Hb. unfold_sketch. through_benign Hb.
  rewrite <- !app_assoc. do 2 eexists.
  split; [reflexivity|]. split; [reflexivity|]. split; reflexivity.
Qed.

Lemma boot_sessions (P : Platform) (w : World) :
  benign P ->
  exists w',
    sl_bt_on_event P sl_bt_evt_system_boot_id w = Ret tt w'
    /\ count is_new_session (trace w') = S (count is_new_session (trace w))
    /\ count is_commit (trace w') = S (count is_commit (trace w)).
Proof.
  intros Hb. unfold sl_bt_on_event, bind, serial. cbn [mem trace].
  match goal with |- context [ble_initialize_gatt_db P ?w0] =>
    destruct (gatt_db_sessions P w0 Hb) as (w1 & ga & -> & Hga & Hs & Hc)
  end.
  cbn [trace] in Hga.
  destruct (init (mem w1)) eqn:Hi.
  - rewrite (first_advertise P w1 Hb Hi). cbv zeta. eexists.
    split; [reflexivity|]. cbn [trace].
    rewrite Hga, !count_app, Hs, Hc. cbn. split; lia.
  - rewrite (readvertise P w1 Hi). cbv zeta. rewrite !Hb. eexists.
    split; [reflexivity|]. cbn [trace].
    rewrite Hga, !count_app, Hs, Hc. cbn. split; lia.
Qed.

Lemma repeat_snoc {A : Type} (a : A) (n : nat) :
  repeat a (S n) = repeat a n ++ [a].
Proof.
  induction n as [|n IH]; [reflexivity|].
  cbn [repeat app] in *. rewrite <- IH. reflexivity.
Qed.

(** X10: unlike the advertising set, the GATT database set-up is not
    guarded: when no status trips [app_assert_status], [n] boot events open
    and commit [n] database sessions, while the advertising set is created
    once. *)
Theorem gatt_setup_repeats_on_boot (P : Platform) (n : nat) :
  benign P ->
  let m := run P power_on (repeat boot_event n) in
  stuck m = false
  /\ count is_new_session (trace (world m)) = n
  /\ count is_commit (trace (world m)) = n
  /\ count is_create_set (trace (world m)) = Nat.min n 1.
Proof.
  intros Hb. cbv zeta.
  assert (G : stuck (run P power_on (repeat boot_event n)) = false
              /\ count is_new_session
                   (trace (world (run P power_on (repeat boot_event n)))) = n
              /\ count is_commit
                   (trace (world (run P power_on (repeat boot_event n)))) = n
              /\ count is_create_set
                   (trace (world (run P power_on (repeat boot_event n))))
                 = Nat.min n 1
              /\ (init (mem (world (run P power_on (repeat boot_event n))))
                  = match n with O => true | S _ => false end)).
  { induction n as [|n (Hs & H1 & H2 & H3 & H4)].
    - cbn. repeat split.
    - rewrite repeat_snoc, run_app. cbn [run fold_left].
      set (m := run P power_on (repeat boot_event n)) in *.
      destruct (step_running P m boot_event Hs) as [Ew Es].
      cbn [boot_event handle] in Ew, Es.
      destruct (boot_sessions P (world m) Hb) as (w' & E & Hn & Hc).
      pose proof (handle_effect P boot_event (world m)) as He.
      cbn [boot_event handle] in He. unfold step_effect in He.
      rewrite E in Ew, Es, He. cbn [final halted] in Ew, Es, He.
      fold boot_event in Ew, Es.
      rewrite Ew, Es. split; [reflexivity|].
      split; [rewrite Hn, H1; reflexivity|].
      split; [rewrite Hc, H2; reflexivity|].
      destruct He as (added & Ht & _ & [(Hi & Hc1 & _) | (Hi & Hc1 & _ & Hd)]).
      + destruct n as [|n].
        * (* first boot: init was up, so the set is created *)
          subst m. cbn [repeat run fold_left power_on world] in *.
          destruct (first_boot P Hb) as (w1 & pre & E1 & Hi1 & _).
          rewrite E in E1. injection E1 as <-.
          rewrite Hi1 in Hi. discriminate Hi.
        * rewrite Ht, count_app, Hc1, H3, Hi, H4.
          split; [cbn; destruct n; reflexivity | reflexivity].
      + destruct n as [|n]; [|rewrite H4 in Hi; discriminate Hi].
        rewrite Ht, count_app, Hc1, H3. split; [reflexivity|].
        destruct Hd as [Hd | Hd]; [discriminate Hd | exact Hd]. }
  destruct G as (Hs & H1 & H2 & H3 & _). repeat split; assumption.
Qed.

Lemma gatt_setup_repeats_on_boot_witness :
  benign friendly
  /\ (let m := run friendly power_on [boot_event; boot_event; boot_event] in
      stuck m = false
      /\ count is_new_session (trace (world m)) = 3%nat
      /\ count is_commit (trace (world m)) = 3%nat
      /\ count is_create_set (trace (world m)) = 1%nat).
Proof.
  assert (Hb : benign friendly) by (intros history c; reflexivity).
  split; [exact Hb|].
  exact (gatt_setup_repeats_on_boot friendly 3 Hb).
Defined.

(** ** Sample sessions *)

Lemma notifications_well_formed_witness :
  Forall byte_input played_note
  /\ Forall well_formed_notification
       (trace (world (run friendly power_on played_note))).
Proof.
  assert (Hin : Forall byte_input played_note).
  { unfold played_note.
    repeat (apply Forall_cons || apply Forall_nil); cbn; try exact I;
      repeat (apply Forall_cons || apply Forall_nil);
      unfold byte_message, is_byte; cbn; lia. }
  split; [exact Hin|].
  exact (notifications_well_formed friendly played_note Hin).
Defined.

Lemma no_connection_all_on_sentinel_witness :
  let m := run friendly power_on played_unheard in
  conn_handle (mem (world m)) = 0xFF
  /\ Forall (sent_on 0xFF) (trace (world m))
  /\ count is_send_notification (trace (world m)) = 2%nat.
Proof.
  destruct (no_connection_all_on_sentinel friendly played_unheard eq_refl)
    as [Hc Hs].
  cbv zeta. split; [exact Hc|]. split; [exact Hs|].
  vm_compute. reflexivity.
Defined.

Lemma conn_handle_tracks_latest_opened_witness :
  stuck (run friendly power_on two_visits) = false
  /\ conn_handle (mem (world (run friendly power_on two_visits))) = 7.
Proof.
  assert (Hs : stuck (run friendly power_on two_visits) = false)
    by (vm_compute; reflexivity).
  split; [exact Hs|].
  exact (conn_handle_tracks_latest_opened friendly two_visits Hs).
Defined.

Lemma advertising_handle_write_once_witness :
  let m' := run friendly connected_friendly
              [StackEvent sl_bt_evt_connection_closed_id; boot_event;
               LoopPass [NoteOn 1 60 100];
               StackEvent sl_bt_evt_connection_closed_id] in
  init (mem (world m')) = false
  /\ advertising_set_handle (mem (world m')) = 1.
Proof.
  assert (Hi : init (mem (world connected_friendly)) = false)
    by (vm_compute; reflexivity).
  destruct (advertising_handle_write_once friendly connected_friendly
              [StackEvent sl_bt_evt_connection_closed_id; boot_event;
               LoopPass [NoteOn 1 60 100];
               StackEvent sl_bt_evt_connection_closed_id] Hi)
    as (H1 & H2 & _).
  cbv zeta. split; [exact H1|]. rewrite H2. vm_compute. reflexivity.
Defined.

(** X14: a pass of [loop] with nothing read and nothing pending changes
    nothing and calls nothing. *)
Theorem idle_pass_is_silent (P : Platform) (w : World) :
  pending (mem w) = [] ->
  loop P [] w = Ret tt w.
Proof.
  intros Hp.
  assert (Hf : note_on_event (mem w) = false /\ note_off_event (mem w) = false).
  { unfold pending in Hp.
    destruct (note_on_event (mem w)), (note_off_event (mem w));
      try discriminate Hp. split; reflexivity. }
  destruct Hf as [Hon Hoff].
  rewrite (loop_eq P [] w w eq_refl). unfold after_read.
  rewrite Hon, Hoff. reflexivity.
Qed.

Lemma idle_pass_is_silent_witness :
  loop friendly [] (world connected_friendly)
  = Ret tt (world connected_friendly).
Proof.
  exact (idle_pass_is_silent friendly (world connected_friendly) eq_refl).
Defined.
